(** * SelfServiceTesting: the capacity scaler and the status reporter

    A shallow embedding of [scripts/scale_spot_ocean_vng.py] and
    [scripts/update_port_scaling_status.py].

    - Python [int] is [Z]; [str] is [string] (the UTF-8 bytes of the text).
    - A decoded JSON document ([response.json()], the [json=] argument of a
      request) is the inductive [json]; a [dict] is an association list in
      insertion order.
    - The [requests] calls are an oracle [transport]: given the requests sent
      so far and the request being sent it either raises or returns a
      response.  Every request is appended to [http_log].
    - [print] appends an event to [stdout]; each event stands for one print
      site and carries the values interpolated there.
    - Exceptions and [sys.exit] are the left summand of a small state and
      error monad; [except Exception] catches the former only. *)

From Stdlib Require Import ZArith List String Ascii Bool Lia.
From Stdlib Require Import Floats.SpecFloat Numbers.DecimalString.
Import ListNotations.
Open Scope string_scope.
Open Scope Z_scope.
Set Warnings "-register-all".

(** ** Python values *)

Module Py.

(** What [json.loads] can return and [json.dumps] can take. *)
Inductive json : Type :=
| JNull                                    (* None *)
| JBool (b : bool)
| JInt (z : Z)
| JFloat (f : spec_float)
| JString (s : string)
| JList (items : list json)
| JObject (fields : list (string * json)).

(** [str(n)] for an [int]. *)
Definition str_of_int (z : Z) : string :=
  NilZero.string_of_int (Z.to_int z).

(** [bool(v)]: the truth value tested by [if v] and [not v]. *)
Definition truthy (v : json) : bool :=
  match v with
  | JNull => false
  | JBool b => b
  | JInt z => negb (z =? 0)
  | JFloat (S754_zero _) => false
  | JFloat _ => true
  | JString s => negb (s =? "")%string
  | JList l => match l with [] => false | _ => true end
  | JObject l => match l with [] => false | _ => true end
  end.

(** [d.get(k)] on a dict kept as an association list. *)
Fixpoint dict_get (k : string) (d : list (string * json)) : option json :=
  match d with
  | [] => None
  | (k', v) :: d' => if (k' =? k)%string then Some v else dict_get k d'
  end.

(** [d[k] = v]: an existing key keeps its place, a new one goes last. *)
Fixpoint dict_set (k : string) (v : json) (d : list (string * json))
  : list (string * json) :=
  match d with
  | [] => [(k, v)]
  | (k', v') :: d' =>
      if (k' =? k)%string then (k', v) :: d' else (k', v') :: dict_set k v d'
  end.

(** [d.update(other)]. *)
Definition dict_update (d other : list (string * json)) : list (string * json) :=
  fold_left (fun acc kv => dict_set (fst kv) (snd kv) acc) other d.

(** [needle in haystack] for two [str]: substring search. *)
Fixpoint prefixb (p s : string) : bool :=
  match p, s with
  | EmptyString, _ => true
  | String a p', String b s' => (a =? b)%char && prefixb p' s'
  | String _ _, EmptyString => false
  end.

Fixpoint str_contains (needle s : string) : bool :=
  prefixb needle s ||
  match s with
  | EmptyString => false
  | String _ s' => str_contains needle s'
  end.

(** Number of bytes of the UTF-8 sequence that starts with byte [a]. *)
Definition utf8_width (a : ascii) : nat :=
  let n := nat_of_ascii a in
  if (n <? 192)%nat then 1%nat
  else if (n <? 224)%nat then 2%nat
  else if (n <? 240)%nat then 3%nat
  else 4%nat.

Fixpoint str_take (n : nat) (s : string) : string :=
  match n, s with
  | S n', String a s' => String a (str_take n' s')
  | _, _ => EmptyString
  end.

(** A response: [status_code], [text], and what [json()] decodes the body to
    ([None] when the body is not JSON). *)
Record Response : Type := mkResponse {
  status_code : Z;
  text : string;
  json_body : option json
}.

(** The exceptions the two scripts can meet; all derive from [Exception]. *)
Inductive Exception : Type :=
| ValueError (msg : string)
| KeyError (key : string)
| IndexError
| TypeError
| JSONDecodeError                          (* response.json() on a bad body *)
| HTTPError (response : Response)         (* raise_for_status() *)
| RequestException (msg : string).         (* connection, timeout, ... *)

(** What unwinds the stack: an [Exception], or [SystemExit] from
    [sys.exit], which [except Exception] lets through. *)
Inductive Raised : Type :=
| Exc (e : Exception)
| SystemExit (code : Z).

(** [x.lower()], on the ASCII letters. Outside ASCII Python maps capital
    letters to small ones too, but no character outside ASCII has a letter of
    [success] as its small form, so comparisons with that word are not
    affected. *)
Definition lower_ascii (a : ascii) : ascii :=
  let n := nat_of_ascii a in
  if ((65 <=? n) && (n <=? 90))%nat then ascii_of_nat (n + 32) else a.

Fixpoint lower (s : string) : string :=
  match s with
  | EmptyString => EmptyString
  | String a s' => String (lower_ascii a) (lower s')
  end.

(** [container[key]] with a [str] key. *)
Definition getitem_str (container : json) (key : string) : Exception + json :=
  match container with
  | JObject d =>
      match dict_get key d with
      | Some v => inr v
      | None => inl (KeyError key)
      end
  | _ => inl TypeError
  end.

(** [container[0]]. *)
Definition getitem_0 (container : json) : Exception + json :=
  match container with
  | JList (x :: _) => inr x
  | JList [] => inl IndexError
  | JString (String a s) => inr (JString (str_take (utf8_width a) (String a s)))
  | JString EmptyString => inl IndexError
  | JObject _ => inl (KeyError "0")      (* JSON keys are never the int 0 *)
  | _ => inl TypeError
  end.

(** ["key" in container] with a [str] key. *)
Definition contains_str (key : string) (container : json) : Exception + bool :=
  match container with
  | JObject d => inr (match dict_get key d with Some _ => true | None => false end)
  | JList l =>
      inr (existsb (fun v => match v with
                             | JString s => (s =? key)%string
                             | _ => false
                             end) l)
  | JString s => inr (str_contains key s)
  | _ => inl TypeError
  end.

End Py.
Export Py.

(** ** The [requests] library and the process environment *)

Inductive Method : Type := GET | PUT | POST | PATCH.

Record Request : Type := mkRequest {
  method : Method;
  url : string;
  headers : list (string * json);
  params : list (string * string);
  json_payload : option json
}.

(** [response.raise_for_status()]: raises for 4xx and 5xx only. *)
Definition raise_for_status (r : Response) : Exception + unit :=
  if (400 <=? status_code r) && (status_code r <? 600)
  then inl (HTTPError r)
  else inr tt.

Definition response_json (r : Response) : Exception + json :=
  match json_body r with
  | Some v => inr v
  | None => inl JSONDecodeError
  end.

(** [status_code not in [200, 201]] *)
Definition not_in_200_201 (code : Z) : bool :=
  negb ((code =? 200) || (code =? 201)).

Definition Transport : Type := list Request -> Request -> Exception + Response.

(** [os.environ] and the clock read by [datetime.utcnow().isoformat()]. *)
Record OS : Type := mkOS {
  environ : string -> option string;
  utcnow_isoformat : string
}.

Definition getenv (os : OS) (k : string) : option string := environ os k.

Definition getenv_default (os : OS) (k default : string) : string :=
  match environ os k with
  | Some v => v
  | None => default
  end.

(** [not v] for the result of [os.getenv(k)]: unset or empty. *)
Definition env_missing (v : option string) : bool :=
  match v with
  | None => true
  | Some s => (s =? "")%string
  end.

(** Lines written to standard output, one constructor per print site. *)
Inductive Print : Type :=
| PFetching (vng_id : string)
| PFetchWarning (e : Exception)
| PScaling (vng_id : string) (min_capacity max_capacity : Z)
| PReason (reason : string)
| PWriteError (status_code : Z) (text : string)
| PSubmitted (result : json)
| PMissingVars (names : list string)
| PParseError
| PValidating
| PSummary (vng_id : string) (min_capacity max_capacity : Z)
           (triggered_by timestamp : string)
| PScalingError (e : Exception)
| PAuthenticated
| PUpdating (entity_identifier port_status : string)
| PPortWarning (status_code : Z) (text : string)
| PPortUpdated
| PPortSkipped (names : list string)
| PPortCompleted
| PPortError (e : Exception).

Record World : Type := mkWorld {
  http_log : list Request;
  stdout : list Print
}.

(** ** The monad of a method body *)

Section Monad.
Context {Self : Type}.

(** A computation over the world and the attributes of [self]. *)
Definition M (A : Type) : Type := World * Self -> (Raised + A) * (World * Self).

Definition ret {A} (a : A) : M A := fun s => (inr a, s).

Definition bind {A B} (m : M A) (k : A -> M B) : M B :=
  fun s => match m s with
           | (inr a, s') => k a s'
           | (inl r, s') => (inl r, s')
           end.

Definition raise {A} (e : Exception) : M A := fun s => (inl (Exc e), s).

(** [sys.exit(code)] *)
Definition sys_exit {A} (code : Z) : M A := fun s => (inl (SystemExit code), s).

Definition lift {A} (r : Exception + A) : M A :=
  match r with
  | inl e => raise e
  | inr a => ret a
  end.

(** [try: body  except Exception as e: handler(e)] *)
Definition try_except {A} (body : M A) (handler : Exception -> M A) : M A :=
  fun s => match body s with
           | (inl (Exc e), s') => handler e s'
           | other => other
           end.

Definition print (p : Print) : M unit :=
  fun '(w, self) =>
    (inr tt, ({| http_log := http_log w; stdout := stdout w ++ [p] |}, self)).

Definition get_self : M Self := fun '(w, self) => (inr self, (w, self)).

Definition put_self (self' : Self) : M unit := fun '(w, _) => (inr tt, (w, self')).

(** One call into [requests]: the request is recorded, then the transport
    answers. *)
Definition send (transport : Transport) (rq : Request) : M Response :=
  fun '(w, self) =>
    let w' := {| http_log := http_log w ++ [rq]; stdout := stdout w |} in
    match transport (http_log w) rq with
    | inl e => (inl (Exc e), (w', self))
    | inr resp => (inr resp, (w', self))
    end.
End Monad.

Arguments M : clear implicits.

Notation "x <- m ;; k" := (bind m (fun x => k))
  (at level 61, m at next level, right associativity).
Notation "m ;;; k" := (bind m (fun _ => k))
  (at level 61, right associativity).

(** Run a method of a freshly bound object from code that has no [self]. *)
Definition with_object {Self A} (obj : Self) (m : M Self A) : M unit (A * Self) :=
  fun '(w, _) =>
    match m (w, obj) with
    | (inr a, (w', obj')) => (inr (a, obj'), (w', tt))
    | (inl r, (w', _)) => (inl r, (w', tt))
    end.

(** ** scripts/scale_spot_ocean_vng.py *)

Module Scaler.

Record SpotOceanScaler : Type := mkScaler {
  token : string;
  account_id : string;
  base_url : string;
  self_headers : list (string * json)
}.

(** [SpotOceanScaler.__init__] *)
Definition init (token account_id : string) : SpotOceanScaler :=
  {| token := token;
     account_id := account_id;
     base_url := "https://api.spotinst.io";
     self_headers := [("Authorization", JString ("Bearer " ++ token));
                      ("Content-Type", JString "application/json")] |}.

(** [SpotOceanScaler.validate_scaling_parameters] *)
Definition validate_scaling_parameters (min_capacity max_capacity : Z)
  : Exception + bool :=
  if min_capacity <? 1 then
    inl (ValueError ("min_capacity must be >= 1, got " ++ str_of_int min_capacity))
  else if max_capacity <? min_capacity then
    inl (ValueError ("max_capacity (" ++ str_of_int max_capacity ++ ") must be >= "
                     ++ "min_capacity (" ++ str_of_int min_capacity ++ ")"))
  else inr true.

(** The [json=] argument built by [scale_vng]. *)
Definition update_payload (min_capacity max_capacity : Z) : json :=
  JObject [("launchSpec",
    JObject [("resourceLimits",
      JObject [("minInstanceCount", JInt min_capacity);
               ("maxInstanceCount", JInt max_capacity)])])].

Section WithTransport.
Variable transport : Transport.

Definition get_request (self : SpotOceanScaler) (vng_id : string) : Request :=
  {| method := GET;
     url := base_url self ++ "/ocean/aws/k8s/launchSpec/" ++ vng_id;
     headers := self_headers self;
     params := [("accountId", account_id self)];
     json_payload := None |}.

Definition put_request (self : SpotOceanScaler) (vng_id : string)
           (min_capacity max_capacity : Z) : Request :=
  {| method := PUT;
     url := base_url self ++ "/ocean/aws/k8s/launchSpec/" ++ vng_id;
     headers := self_headers self;
     params := [("accountId", account_id self)];
     json_payload := Some (update_payload min_capacity max_capacity) |}.

(** What [get_launch_spec_details] returns for a decoded body. *)
Definition unwrap_launch_spec (launch_spec_data : json) : Exception + json :=
  match contains_str "response" launch_spec_data with
  | inl e => inl e
  | inr true =>
      match getitem_str launch_spec_data "response" with
      | inl e => inl e
      | inr wrapper =>
          match getitem_str wrapper "items" with
          | inl e => inl e
          | inr items => getitem_0 items
          end
      end
  | inr false => inr launch_spec_data
  end.

(** [SpotOceanScaler.get_launch_spec_details] *)
Definition get_launch_spec_details (vng_id : string) : M SpotOceanScaler json :=
  self <- get_self ;;
  print (PFetching vng_id) ;;;
  response <- send transport (get_request self vng_id) ;;
  lift (raise_for_status response) ;;;
  launch_spec_data <- lift (response_json response) ;;
  lift (unwrap_launch_spec launch_spec_data).

(** [SpotOceanScaler.scale_vng] *)
Definition scale_vng (cluster_id vng_id : string) (min_capacity max_capacity : Z)
           (reason : string) : M SpotOceanScaler json :=
  self <- get_self ;;
  current_launch_spec <-
    try_except (get_launch_spec_details vng_id)
               (fun e => print (PFetchWarning e) ;;; ret (JObject [])) ;;
  print (PScaling vng_id min_capacity max_capacity) ;;;
  (if (reason =? "")%string then ret tt else print (PReason reason)) ;;;
  response <- send transport (put_request self vng_id min_capacity max_capacity) ;;
  (if not_in_200_201 (status_code response) then
     print (PWriteError (status_code response) (text response)) ;;;
     lift (raise_for_status response)
   else ret tt) ;;;
  result <- lift (response_json response) ;;
  print (PSubmitted result) ;;;
  ret result.

Variable py_int : string -> option Z.   (* int(s); None is ValueError *)
Variable os : OS.

Definition missing_vars : list string :=
  (if env_missing (getenv os "SPOT_TOKEN") then ["SPOT_TOKEN"] else []) ++
  (if env_missing (getenv os "SPOT_ACCOUNT_ID") then ["SPOT_ACCOUNT_ID"] else []) ++
  (if env_missing (getenv os "VNG_ID") then ["VNG_ID"] else []) ++
  (if env_missing (getenv os "MIN_CAPACITY") then ["MIN_CAPACITY"] else []) ++
  (if env_missing (getenv os "MAX_CAPACITY") then ["MAX_CAPACITY"] else []).

(** [main] *)
Definition main : M unit unit :=
  let spot_token := getenv_default os "SPOT_TOKEN" "" in
  let spot_account_id := getenv_default os "SPOT_ACCOUNT_ID" "" in
  let vng_id := getenv_default os "VNG_ID" "" in
  let min_capacity_str := getenv_default os "MIN_CAPACITY" "" in
  let max_capacity_str := getenv_default os "MAX_CAPACITY" "" in
  let reason := getenv_default os "REASON" "" in
  let triggered_by := getenv_default os "TRIGGERED_BY" "GitHub Actions" in
  match missing_vars with
  | _ :: _ => print (PMissingVars missing_vars) ;;; sys_exit 1
  | [] =>
      match py_int min_capacity_str, py_int max_capacity_str with
      | Some min_capacity, Some max_capacity =>
          try_except
            (let scaler := init spot_token spot_account_id in
             print PValidating ;;;
             lift (validate_scaling_parameters min_capacity max_capacity) ;;;
             with_object scaler
               (scale_vng "" vng_id min_capacity max_capacity reason) ;;;
             print (PSummary vng_id min_capacity max_capacity triggered_by
                             (utcnow_isoformat os ++ "Z")) ;;;
             sys_exit 0)
            (fun e => print (PScalingError e) ;;; sys_exit 1)
      | _, _ => print PParseError ;;; sys_exit 1
      end
  end.
End WithTransport.

(** The status the process ends with. *)
Definition exit_code {A S} (r : (Raised + A) * S) : Z :=
  match fst r with
  | inl (SystemExit code) => code
  | inl (Exc _) => 1
  | inr _ => 0
  end.

End Scaler.

(** ** scripts/update_port_scaling_status.py *)

Module Reporter.

Record PortStatusReporter : Type := mkReporter {
  client_id : string;
  client_secret : string;
  base_url : string;
  access_token : json        (* None until authenticate() stores the token *)
}.

(** [PortStatusReporter.__init__] *)
Definition init (client_id client_secret : string) : PortStatusReporter :=
  {| client_id := client_id;
     client_secret := client_secret;
     base_url := "https://api.port.io/v1";
     access_token := JNull |}.

Definition set_access_token (v : json) (self : PortStatusReporter)
  : PortStatusReporter :=
  {| client_id := client_id self;
     client_secret := client_secret self;
     base_url := base_url self;
     access_token := v |}.

(** Lines 73 and 74 of [update_entity_status]. *)
Definition is_successful (scaling_status : string) : bool :=
  (lower scaling_status =? "success")%string.

Definition port_status (scaling_status : string) : string :=
  if is_successful scaling_status then "COMPLETED" else "FAILED".

(** [if details:] for an [Optional[Dict]]. *)
Definition details_given (details : option (list (string * json))) : bool :=
  match details with
  | Some (_ :: _) => true
  | _ => false
  end.

Section WithTransport.
Variable transport : Transport.
Variable os : OS.

Definition auth_request (self : PortStatusReporter) : Request :=
  {| method := POST;
     url := base_url self ++ "/auth/access_token";
     headers := [];
     params := [];
     json_payload := Some (JObject [("clientId", JString (client_id self));
                                    ("clientSecret", JString (client_secret self))]) |}.

(** [PortStatusReporter.authenticate] *)
Definition authenticate : M PortStatusReporter json :=
  self <- get_self ;;
  response <- send transport (auth_request self) ;;
  lift (raise_for_status response) ;;;
  body <- lift (response_json response) ;;
  tok <- lift (getitem_str body "accessToken") ;;
  put_self (set_access_token tok self) ;;;
  print PAuthenticated ;;;
  ret tok.

Definition scaling_job_link : string :=
  getenv_default os "GITHUB_SERVER_URL" "https://github.com" ++ "/" ++
  getenv_default os "GITHUB_REPOSITORY" "" ++ "/actions/runs/" ++
  getenv_default os "GITHUB_RUN_ID" "".

(** The [json=] argument built by [update_entity_status]. *)
Definition entity_update (scaling_status : string)
           (details : option (list (string * json))) : json :=
  let properties :=
    [("last_scaling_status", JString (port_status scaling_status));
     ("last_scaling_time", JString (utcnow_isoformat os ++ "Z"));
     ("scaling_job_link", JString scaling_job_link)] in
  JObject [("properties",
            JObject (if details_given details
                     then dict_update properties
                            (match details with Some d => d | None => [] end)
                     else properties))].

Definition patch_request (self : PortStatusReporter)
           (blueprint_id entity_identifier scaling_status : string)
           (details : option (list (string * json))) : Request :=
  {| method := PATCH;
     url := base_url self ++ "/blueprints/" ++ blueprint_id ++ "/entities/"
            ++ entity_identifier;
     headers := [("Authorization", access_token self);
                 ("Content-Type", JString "application/json")];
     params := [("upsert", "true")];
     json_payload := Some (entity_update scaling_status details) |}.

(** Lines 69 and 70 of [update_entity_status]: authenticate unless a token
    is already held. *)
Definition authenticate_if_needed : M PortStatusReporter unit :=
  self <- get_self ;;
  if negb (truthy (access_token self))
  then authenticate ;;; ret tt
  else ret tt.

(** [PortStatusReporter.update_entity_status] *)
Definition update_entity_status (blueprint_id entity_identifier scaling_status : string)
           (details : option (list (string * json))) : M PortStatusReporter json :=
  authenticate_if_needed ;;;
  self <- get_self ;;
  print (PUpdating entity_identifier (port_status scaling_status)) ;;;
  response <- send transport
    (patch_request self blueprint_id entity_identifier scaling_status details) ;;
  if not_in_200_201 (status_code response) then
    print (PPortWarning (status_code response) (text response)) ;;;
    ret (JObject [])
  else
    result <- lift (response_json response) ;;
    print PPortUpdated ;;;
    ret result.

Definition missing_vars : list string :=
  (if env_missing (getenv os "PORT_CLIENT_ID") then ["PORT_CLIENT_ID"] else []) ++
  (if env_missing (getenv os "PORT_CLIENT_SECRET") then ["PORT_CLIENT_SECRET"] else []) ++
  (if env_missing (getenv os "CLUSTER_ID") then ["CLUSTER_ID"] else []).

(** The [details=] argument passed by [main]. *)
Definition main_details : list (string * json) :=
  [("workflow_run_id", JString (getenv_default os "GITHUB_RUN_ID" ""));
   ("workflow_name", JString (getenv_default os "GITHUB_WORKFLOW" ""));
   ("workflow_actor", JString (getenv_default os "GITHUB_ACTOR" ""))].

(** [main]; once [missing_vars] is empty none of the three required
    variables is [None]. *)
Definition main : M unit unit :=
  let port_client_id := getenv_default os "PORT_CLIENT_ID" "" in
  let port_client_secret := getenv_default os "PORT_CLIENT_SECRET" "" in
  let cluster_id := getenv_default os "CLUSTER_ID" "" in
  let scaling_status := getenv_default os "SCALING_STATUS" "unknown" in
  let blueprint_id := getenv_default os "BLUEPRINT_ID" "spot_ocean_cluster" in
  match missing_vars with
  | _ :: _ => print (PPortSkipped missing_vars) ;;; sys_exit 0
  | [] =>
      try_except
        (let reporter := init port_client_id port_client_secret in
         let entity_identifier := cluster_id ++ "-heartbeat" in
         with_object reporter
           (update_entity_status blueprint_id entity_identifier scaling_status
                                 (Some main_details)) ;;;
         print PPortCompleted ;;;
         sys_exit 0)
        (fun e => print (PPortError e) ;;; sys_exit 0)
  end.
End WithTransport.

End Reporter.

(** ** Specification-side definitions *)

(** How [scale_vng] ends, as a function of what the write call did. *)
Definition write_result (o : Exception + Response) : Raised + json :=
  match o with
  | inl e => inl (Exc e)
  | inr response =>
      if not_in_200_201 (status_code response) then
        match raise_for_status response with
        | inl e => inl (Exc e)
        | inr _ =>
            match response_json response with
            | inl e => inl (Exc e)
            | inr v => inr v
            end
        end
      else
        match response_json response with
        | inl e => inl (Exc e)
        | inr v => inr v
        end
  end.

(** [int(s)] on plain decimal literals, for running [main] on examples. *)
Definition int_of_decimal (s : string) : option Z :=
  match s with
  | EmptyString => None
  | _ => option_map Z.of_int (NilZero.int_of_string s)
  end.

(** An environment given as a list of bindings. *)
Definition os_of (bindings : list (string * string)) (now : string) : OS :=
  {| environ := fun k =>
       match find (fun kv => (fst kv =? k)%string) bindings with
       | Some kv => Some (snd kv)
       | None => None
       end;
     utcnow_isoformat := now |}.

Definition empty_world : World := {| http_log := []; stdout := [] |}.

(** A transport that answers by the method of the request alone. *)
Definition by_method (answer : Method -> Exception + Response) : Transport :=
  fun _ rq => answer (method rq).

Definition response_of (code : Z) (body : string) (decoded : option json)
  : Exception + Response :=
  inr {| status_code := code; text := body; json_body := decoded |}.

Definition scaler_env (min_capacity max_capacity : string) : OS :=
  os_of [("SPOT_TOKEN", "s3cr3t"); ("SPOT_ACCOUNT_ID", "act-123abc");
         ("VNG_ID", "ols-a1b2c3d4"); ("MIN_CAPACITY", min_capacity);
         ("MAX_CAPACITY", max_capacity); ("REASON", "load test")]
        "2024-05-01T10:00:00".

(** How [update_entity_status] ends, as a function of what the PATCH call
    did. *)
Definition patch_result (o : Exception + Response) : Raised + json :=
  match o with
  | inl e => inl (Exc e)
  | inr response =>
      if not_in_200_201 (status_code response) then inr (JObject [])
      else match response_json response with
           | inl e => inl (Exc e)
           | inr v => inr v
           end
  end.

(** What [update_entity_status] prints once the PATCH call is over. *)
Definition patch_prints (o : Exception + Response) : list Print :=
  match o with
  | inl _ => []
  | inr response =>
      if not_in_200_201 (status_code response)
      then [PPortWarning (status_code response) (text response)]
      else match response_json response with
           | inl _ => []
           | inr _ => [PPortUpdated]
           end
  end.

(** Equality of two characters up to the case of an ASCII letter. *)
Definition is_upper (a : ascii) : bool :=
  ((65 <=? nat_of_ascii a) && (nat_of_ascii a <=? 90))%nat.

Definition char_eqb_nocase (a b : ascii) : bool :=
  (a =? b)%char
  || (is_upper a && (nat_of_ascii a + 32 =? nat_of_ascii b)%nat)
  || (is_upper b && (nat_of_ascii b + 32 =? nat_of_ascii a)%nat).

(** Case-insensitive comparison of two strings, letter by letter. *)
Fixpoint eqb_nocase (s t : string) : bool :=
  match s, t with
  | EmptyString, EmptyString => true
  | String a s', String b t' => char_eqb_nocase a b && eqb_nocase s' t'
  | _, _ => false
  end.

(** The [last_scaling_status] property carried by a request body. *)
Definition reported_status (rq : Request) : option json :=
  match json_payload rq with
  | Some body =>
      match getitem_str body "properties" with
      | inr (JObject properties) => dict_get "last_scaling_status" properties
      | _ => None
      end
  | None => None
  end.

(** The arguments of one [update_entity_status] call. *)
Record Call : Type := mkCall {
  call_blueprint : string;
  call_entity : string;
  call_status : string;
  call_details : option (list (string * json))
}.

(** A caller that makes one [update_entity_status] call after another on the
    same instance, going on after a call that raised. *)
Fixpoint run_calls (transport : Transport) (os : OS) (calls : list Call)
         (s : World * Reporter.PortStatusReporter)
  : World * Reporter.PortStatusReporter :=
  match calls with
  | [] => s
  | c :: calls' =>
      run_calls transport os calls'
        (snd (Reporter.update_entity_status transport os
                (call_blueprint c) (call_entity c)
                (call_status c) (call_details c) s))
  end.

Definition call_request (os : OS) (self : Reporter.PortStatusReporter)
           (c : Call) : Request :=
  Reporter.patch_request os self (call_blueprint c) (call_entity c)
                         (call_status c) (call_details c).

Definition reporter_env : OS :=
  os_of [("PORT_CLIENT_ID", "port-id"); ("PORT_CLIENT_SECRET", "port-secret");
         ("CLUSTER_ID", "o-12ab34cd"); ("GITHUB_REPOSITORY", "Flymnt/SelfServiceTesting");
         ("GITHUB_RUN_ID", "42")]
        "2024-05-01T10:05:00".

Definition token_response : Exception + Response :=
  response_of 200 "..." (Some (JObject [("accessToken", JString "tok-1")])).

(** The token endpoint is down for the first request and up afterwards. *)
Definition flaky_auth : Transport :=
  fun sent rq =>
    match method rq, sent with
    | POST, [] => response_of 503 "Service Unavailable" None
    | POST, _ => token_response
    | _, _ => response_of 200 "{}" (Some (JObject []))
    end.

Definition sample_call : Call :=
  {| call_blueprint := "spot_ocean_cluster";
     call_entity := "o-12ab34cd-heartbeat";
     call_status := "success";
     call_details := None |}.

(** What [scale_vng] prints once the write call is over. *)
Definition write_prints (o : Exception + Response) : list Print :=
  match o with
  | inl _ => []
  | inr response =>
      (if not_in_200_201 (status_code response)
       then [PWriteError (status_code response) (text response)]
       else []) ++
      match write_result (inr response) with
      | inr v => [PSubmitted v]
      | inl _ => []
      end
  end.

(** Keys of a dict, in order. *)
Definition dict_keys (d : list (string * json)) : list string := map fst d.

(** ** Properties of the scaler *)

Ltac unfold_monad :=
  unfold bind, ret, raise, sys_exit, lift, try_except, print, get_self,
         put_self, send, with_object in *.

Ltac step_match :=
  match goal with
  | |- context [match ?x with _ => _ end] =>
      lazymatch x with
      | context [match _ with _ => _ end] => fail
      | _ => destruct x eqn:?
      end
  end.

Import Scaler.

Lemma get_launch_spec_details_effect transport vng_id w self :
  let out := get_launch_spec_details transport vng_id (w, self) in
  http_log (fst (snd out)) = (http_log w ++ [get_request self vng_id])%list /\
  stdout (fst (snd out)) = (stdout w ++ [PFetching vng_id])%list /\
  snd (snd out) = self /\
  (forall code, fst out <> inl (SystemExit code)).
Proof.
  unfold get_launch_spec_details. unfold_monad. cbn.
  repeat (step_match; cbn); repeat split; try reflexivity; intros; congruence.
Qed.

(** The fetch inside [scale_vng] never decides how [scale_vng] ends: the
    result is a function of the answer to the write call, and the two
    requests are always sent in this order. *)
Lemma scale_vng_run transport cluster_id vng_id min_capacity max_capacity reason w self :
  let out := scale_vng transport cluster_id vng_id min_capacity max_capacity reason
                       (w, self) in
  let put := put_request self vng_id min_capacity max_capacity in
  fst out = write_result
              (transport (http_log w ++ [get_request self vng_id])%list put) /\
  http_log (fst (snd out)) = (http_log w ++ [get_request self vng_id; put])%list /\
  snd (snd out) = self.
Proof.
  pose proof (get_launch_spec_details_effect transport vng_id w self) as H.
  cbv zeta in *. destruct H as (Hlog & _ & Hself & Hexit).
  unfold scale_vng, write_result.
  remember (get_launch_spec_details transport vng_id) as fetch eqn:Hfetch.
  clear Hfetch. unfold_monad. cbn.
  destruct (fetch (w, self)) as [r [w1 self1]].
  cbn in Hlog, Hself, Hexit. subst self1.
  destruct r as [[e | code] | v]; [ | exfalso; eapply Hexit; reflexivity | ];
    cbn; destruct (reason =? "")%string; cbn; rewrite Hlog;
    (destruct (transport _ _) as [e' | response]; cbn;
     [ | unfold raise_for_status;
         destruct (not_in_200_201 (status_code response)); cbn;
         [ destruct (_ && _); cbn | ];
         destruct (response_json response); cbn ]);
    rewrite <- ?app_assoc; cbn; repeat split; reflexivity.
Qed.

Lemma validate_rejects (min_capacity max_capacity : Z) :
  min_capacity < 1 \/ max_capacity < min_capacity ->
  exists msg, validate_scaling_parameters min_capacity max_capacity
              = inl (ValueError msg).
Proof.
  intros Hbad. unfold validate_scaling_parameters.
  destruct (Z.ltb_spec min_capacity 1) as [Hmin | Hmin]; [ eauto | ].
  destruct (Z.ltb_spec max_capacity min_capacity) as [Hmax | Hmax]; [ eauto | lia ].
Qed.

Lemma validate_accepts (min_capacity max_capacity : Z) :
  1 <= min_capacity -> min_capacity <= max_capacity ->
  validate_scaling_parameters min_capacity max_capacity = inr true.
Proof.
  intros Hmin Hmax. unfold validate_scaling_parameters.
  destruct (Z.ltb_spec min_capacity 1); [ lia | ].
  destruct (Z.ltb_spec max_capacity min_capacity); [ lia | reflexivity ].
Qed.

(** C1. [validate_scaling_parameters] raises [ValueError] whenever
    [min_capacity < 1], whatever [max_capacity] is; it raises [ValueError]
    whenever [max_capacity < min_capacity]; and it returns [True] for every
    pair with [min_capacity >= 1] and [max_capacity >= min_capacity]. *)
Theorem validate_scaling_parameters_spec (min_capacity max_capacity : Z) :
  (min_capacity < 1 ->
   exists msg, validate_scaling_parameters min_capacity max_capacity
               = inl (ValueError msg)) /\
  (max_capacity < min_capacity ->
   exists msg, validate_scaling_parameters min_capacity max_capacity
               = inl (ValueError msg)) /\
  (1 <= min_capacity -> min_capacity <= max_capacity ->
   validate_scaling_parameters min_capacity max_capacity = inr true).
Proof.
  split; [ | split ].
  - intros Hmin. apply validate_rejects. left. exact Hmin.
  - intros Hmax. apply validate_rejects. right. exact Hmax.
  - apply validate_accepts.
Qed.

Lemma validate_scaling_parameters_spec_witness :
  (exists msg, validate_scaling_parameters 0 7 = inl (ValueError msg)) /\
  (exists msg, validate_scaling_parameters 5 2 = inl (ValueError msg)) /\
  validate_scaling_parameters 3 10 = inr true.
Proof.
  split; [ | split ].
  - apply (proj1 (validate_scaling_parameters_spec 0 7)). lia.
  - apply (proj1 (proj2 (validate_scaling_parameters_spec 5 2))). lia.
  - apply (proj2 (proj2 (validate_scaling_parameters_spec 3 10))); lia.
Defined.

(** C2. For every valid pair, [validate_scaling_parameters] accepts it and
    [scale_vng] sends one read and then one write whose body is exactly
    [{"launchSpec": {"resourceLimits": {"minInstanceCount": min,
    "maxInstanceCount": max}}}]: the two capacity fields under the
    resource-limits key and nothing else. The read carries no body. *)
Theorem scale_vng_payload_exact transport cluster_id vng_id min_capacity max_capacity
        reason w self :
  1 <= min_capacity -> min_capacity <= max_capacity ->
  validate_scaling_parameters min_capacity max_capacity = inr true /\
  exists read write,
    http_log (fst (snd (scale_vng transport cluster_id vng_id min_capacity
                                  max_capacity reason (w, self))))
    = (http_log w ++ [read; write])%list /\
    method read = GET /\ json_payload read = None /\
    method write = PUT /\
    json_payload write =
      Some (JObject [("launchSpec",
              JObject [("resourceLimits",
                JObject [("minInstanceCount", JInt min_capacity);
                         ("maxInstanceCount", JInt max_capacity)])])]).
Proof.
  intros Hmin Hmax. split.
  - apply validate_accepts; assumption.
  - exists (get_request self vng_id),
           (put_request self vng_id min_capacity max_capacity).
    split; [ | repeat split ].
    apply (scale_vng_run transport cluster_id vng_id min_capacity max_capacity
                         reason w self).
Qed.

Lemma scale_vng_payload_exact_witness :
  exists read write,
    http_log (fst (snd (scale_vng (by_method (fun _ => response_of 200 "{}" (Some (JObject []))))
                                  "" "abc123" 3 10 "" (empty_world, init "t" "a"))))
    = [read; write] /\
    json_payload write =
      Some (JObject [("launchSpec",
              JObject [("resourceLimits",
                JObject [("minInstanceCount", JInt 3);
                         ("maxInstanceCount", JInt 10)])])]).
Proof.
  destruct (scale_vng_payload_exact
              (by_method (fun _ => response_of 200 "{}" (Some (JObject []))))
              "" "abc123" 3 10 "" empty_world (init "t" "a"))
    as (_ & read & write & Hlog & _ & _ & _ & Hbody); [ lia | lia | ].
  exists read, write. split; assumption.
Defined.

(** C4. When the read of the current configuration fails inside [scale_vng]
    (the transport raises, the status is an error, or the body cannot be
    used), the write is still sent, and [scale_vng] ends exactly as it does
    in a run where the read succeeds and the write is answered alike. *)
Theorem scale_vng_fetch_failure_harmless t_fail t_ok cluster_id vng_id min_capacity
        max_capacity reason w self e current :
  fst (get_launch_spec_details t_fail vng_id (w, self)) = inl (Exc e) ->
  fst (get_launch_spec_details t_ok vng_id (w, self)) = inr current ->
  t_fail (http_log w ++ [get_request self vng_id])%list
         (put_request self vng_id min_capacity max_capacity)
  = t_ok (http_log w ++ [get_request self vng_id])%list
         (put_request self vng_id min_capacity max_capacity) ->
  let failed := scale_vng t_fail cluster_id vng_id min_capacity max_capacity reason
                          (w, self) in
  let fetched := scale_vng t_ok cluster_id vng_id min_capacity max_capacity reason
                           (w, self) in
  fst failed = fst fetched /\
  http_log (fst (snd failed))
  = (http_log w ++ [get_request self vng_id;
                    put_request self vng_id min_capacity max_capacity])%list /\
  http_log (fst (snd failed)) = http_log (fst (snd fetched)).
Proof.
  intros _ _ Hput failed fetched. subst failed fetched.
  destruct (scale_vng_run t_fail cluster_id vng_id min_capacity max_capacity
                          reason w self) as (Hr1 & Hl1 & _).
  destruct (scale_vng_run t_ok cluster_id vng_id min_capacity max_capacity
                          reason w self) as (Hr2 & Hl2 & _).
  rewrite Hr1, Hr2, Hl1, Hl2, Hput. auto.
Qed.

Lemma scale_vng_fetch_failure_harmless_witness :
  let t_fail := by_method (fun m => match m with
                                    | GET => inl (RequestException "connection reset")
                                    | _ => response_of 200 "{}" (Some (JObject []))
                                    end) in
  let t_ok := by_method (fun _ => response_of 200 "{}" (Some (JObject []))) in
  fst (scale_vng t_fail "" "abc123" 3 10 "" (empty_world, init "t" "a"))
  = fst (scale_vng t_ok "" "abc123" 3 10 "" (empty_world, init "t" "a")).
Proof.
  intros t_fail t_ok.
  apply (scale_vng_fetch_failure_harmless t_fail t_ok "" "abc123" 3 10 ""
           empty_world (init "t" "a") (RequestException "connection reset")
           (JObject []));
    reflexivity.
Defined.

(** A write answered with a 4xx or 5xx status makes [scale_vng] raise the
    [HTTPError] that carries the response as received. *)
Lemma scale_vng_error_status transport cluster_id vng_id min_capacity max_capacity
      reason w self response :
  transport (http_log w ++ [get_request self vng_id])%list
            (put_request self vng_id min_capacity max_capacity) = inr response ->
  400 <= status_code response < 600 ->
  fst (scale_vng transport cluster_id vng_id min_capacity max_capacity reason (w, self))
  = inl (Exc (HTTPError response)).
Proof.
  intros Hput Hcode.
  rewrite (proj1 (scale_vng_run transport cluster_id vng_id min_capacity
                                max_capacity reason w self)), Hput.
  unfold write_result, raise_for_status, not_in_200_201.
  replace (status_code response =? 200) with false by (symmetry; apply Z.eqb_neq; lia).
  replace (status_code response =? 201) with false by (symmetry; apply Z.eqb_neq; lia).
  replace (400 <=? status_code response) with true by (symmetry; apply Z.leb_le; lia).
  replace (status_code response <? 600) with true by (symmetry; apply Z.ltb_lt; lia).
  reflexivity.
Qed.

(** C5. A write answered with status 202, which is outside [200, 201], does
    not make [scale_vng] fail: the error lines are printed,
    [raise_for_status] does not raise below 400, and the decoded body is
    returned as the result of a successful update. *)
Theorem scale_vng_accepts_status_202 :
  let transport := by_method (fun m => match m with
                                       | PUT => response_of 202 "{}" (Some (JObject []))
                                       | _ => response_of 200 "{}" (Some (JObject []))
                                       end) in
  let out := scale_vng transport "" "abc123" 3 10 "" (empty_world, init "t" "a") in
  fst out = inr (JObject []) /\
  stdout (fst (snd out))
  = [PFetching "abc123"; PScaling "abc123" 3 10;
     PWriteError 202 "{}";
     PSubmitted (JObject [])].
Proof. split; reflexivity. Qed.

(** C6. When the two capacities parse but do not form a valid pair, [main]
    stops on the [ValueError] of the validation: the process exits with
    status 1 and not one HTTP request has been sent, neither the read nor
    the write. *)
Theorem main_invalid_pair_no_request transport py_int os w min_capacity max_capacity :
  missing_vars os = [] ->
  py_int (getenv_default os "MIN_CAPACITY" "") = Some min_capacity ->
  py_int (getenv_default os "MAX_CAPACITY" "") = Some max_capacity ->
  min_capacity < 1 \/ max_capacity < min_capacity ->
  let out := main transport py_int os (w, tt) in
  fst out = inl (SystemExit 1) /\
  http_log (fst (snd out)) = http_log w /\
  exists msg,
    validate_scaling_parameters min_capacity max_capacity = inl (ValueError msg) /\
    stdout (fst (snd out))
    = (stdout w ++ [PValidating; PScalingError (ValueError msg)])%list.
Proof.
  intros Hmissing Hmin Hmax Hbad out. subst out.
  destruct (validate_rejects min_capacity max_capacity Hbad) as [msg Hv].
  unfold main. rewrite Hmissing, Hmin, Hmax.
  unfold_monad. rewrite Hv. cbn.
  repeat split; try reflexivity.
  exists msg. split; [ reflexivity | ].
  rewrite <- app_assoc. reflexivity.
Qed.

Lemma main_invalid_pair_no_request_witness :
  let out := main (by_method (fun _ => response_of 200 "{}" (Some (JObject []))))
                  int_of_decimal (scaler_env "5" "2") (empty_world, tt) in
  fst out = inl (SystemExit 1) /\ http_log (fst (snd out)) = [].
Proof.
  destruct (main_invalid_pair_no_request
              (by_method (fun _ => response_of 200 "{}" (Some (JObject []))))
              int_of_decimal (scaler_env "5" "2") empty_world 5 2)
    as (Hexit & Hlog & _); try reflexivity.
  - right. lia.
  - split; assumption.
Defined.

(** C9. On a successful read, [get_launch_spec_details] takes both shapes
    of the body: when the object has the key [response] wrapping an
    [items] list, the first item of that list is returned; when the object
    has no key [response], the object itself is returned as it is. *)
Theorem get_launch_spec_details_shapes transport vng_id w self response fields :
  transport (http_log w) (get_request self vng_id) = inr response ->
  raise_for_status response = inr tt ->
  json_body response = Some (JObject fields) ->
  let out := fst (get_launch_spec_details transport vng_id (w, self)) in
  (forall wrapper item rest,
      dict_get "response" fields = Some (JObject wrapper) ->
      dict_get "items" wrapper = Some (JList (item :: rest)) ->
      out = inr item) /\
  (dict_get "response" fields = None -> out = inr (JObject fields)).
Proof.
  intros Hget Hstatus Hbody out. subst out.
  unfold get_launch_spec_details, response_json. unfold_monad. cbn.
  rewrite Hget. cbn. rewrite Hstatus. cbn. rewrite Hbody. cbn.
  unfold unwrap_launch_spec. cbn.
  split.
  - intros wrapper item rest Hresp Hitems. rewrite Hresp. cbn.
    rewrite Hitems. reflexivity.
  - intros Hnone. rewrite Hnone. reflexivity.
Qed.

Lemma get_launch_spec_details_shapes_witness :
  let item := JObject [("id", JString "ols-a1b2c3d4")] in
  let enveloped := JObject [("request", JObject []);
                            ("response", JObject [("items", JList [item]);
                                                  ("count", JInt 1)])] in
  fst (get_launch_spec_details
         (by_method (fun _ => response_of 200 "..." (Some enveloped)))
         "ols-a1b2c3d4" (empty_world, init "t" "a")) = inr item /\
  fst (get_launch_spec_details
         (by_method (fun _ => response_of 200 "..." (Some item)))
         "ols-a1b2c3d4" (empty_world, init "t" "a")) = inr item.
Proof.
  intros item enveloped. split.
  - eapply (proj1 (get_launch_spec_details_shapes
                     (by_method (fun _ => response_of 200 "..." (Some enveloped)))
                     "ols-a1b2c3d4" empty_world (init "t" "a") _ _
                     eq_refl eq_refl eq_refl)); reflexivity.
  - apply (proj2 (get_launch_spec_details_shapes
                    (by_method (fun _ => response_of 200 "..." (Some item)))
                    "ols-a1b2c3d4" empty_world (init "t" "a") _ _
                    eq_refl eq_refl eq_refl)). reflexivity.
Defined.

(** ** Properties of the reporter *)

Import Reporter.

Lemma char_eqb_nocase_lower (b : ascii) :
  In b ["s"; "u"; "c"; "e"]%char ->
  forall a, char_eqb_nocase a b = (lower_ascii a =? b)%char.
Proof.
  intros Hb a.
  destruct Hb as [<- | [<- | [<- | [<- | []]]]];
    destruct a as [[] [] [] [] [] [] [] []]; reflexivity.
Qed.

(** On the word [success], comparing after [lower()] is the
    case-insensitive comparison. *)
Lemma is_successful_nocase (s : string) :
  is_successful s = eqb_nocase s "success".
Proof.
  unfold is_successful.
  assert (Hgen : forall t, (forall b, In b (list_ascii_of_string t) ->
                                      In b ["s"; "u"; "c"; "e"]%char) ->
                 forall s, (lower s =? t)%string = eqb_nocase s t).
  { induction t as [ | b t IH]; intros Hall [ | a s']; cbn; try reflexivity.
    rewrite (char_eqb_nocase_lower b) by (apply Hall; left; reflexivity).
    rewrite IH by (intros c Hc; apply Hall; right; exact Hc).
    destruct (lower_ascii a =? b)%char; reflexivity. }
  apply Hgen. intros b Hb. cbn in Hb.
  repeat (destruct Hb as [<- | Hb]; [ cbn; tauto | ]). destruct Hb.
Qed.

Lemma dict_get_dict_set_other k k' v d :
  k <> k' -> dict_get k (dict_set k' v d) = dict_get k d.
Proof.
  intros Hne. induction d as [ | [k0 v0] d IH]; cbn.
  - destruct (String.eqb_spec k' k); congruence.
  - destruct (String.eqb_spec k0 k'); cbn.
    + subst k0. destruct (String.eqb_spec k' k); congruence.
    + destruct (String.eqb_spec k0 k); [ reflexivity | exact IH ].
Qed.

Lemma dict_get_dict_update k other :
  dict_get k other = None ->
  forall d, dict_get k (dict_update d other) = dict_get k d.
Proof.
  unfold dict_update.
  induction other as [ | [k0 v0] other IH]; intros Hnone d; cbn.
  - reflexivity.
  - cbn in Hnone. destruct (String.eqb_spec k0 k) as [ | Hne]; [ discriminate | ].
    rewrite (IH Hnone). apply dict_get_dict_set_other. congruence.
Qed.

(** The body sent by [update_entity_status] carries [port_status] unless
    the extra details name that property themselves. *)
Lemma reported_status_patch_request os self blueprint_id entity_identifier
      scaling_status details :
  match details with
  | Some d => dict_get "last_scaling_status" d = None
  | None => True
  end ->
  reported_status (patch_request os self blueprint_id entity_identifier
                                 scaling_status details)
  = Some (JString (port_status scaling_status)).
Proof.
  intros Hd. unfold reported_status, patch_request, entity_update. cbn.
  destruct details as [[ | kv d] | ]; cbn; try reflexivity.
  change (fold_left _ d _) with
    (dict_update
       [("last_scaling_status", JString (port_status scaling_status));
        ("last_scaling_time", JString (utcnow_isoformat os ++ "Z"));
        ("scaling_job_link", JString (scaling_job_link os))] (kv :: d)).
  rewrite dict_get_dict_update by exact Hd. reflexivity.
Qed.

(** C7. Every [scaling_status] equal to [success] up to the case of its
    letters is mapped to [COMPLETED]; every other non-empty one is mapped to
    [FAILED]; and that is the [last_scaling_status] sent in the body,
    whenever the extra details do not set that property themselves. *)
Theorem port_status_case_insensitive (scaling_status : string) :
  (eqb_nocase scaling_status "success" = true ->
   port_status scaling_status = "COMPLETED") /\
  (scaling_status <> "" -> eqb_nocase scaling_status "success" = false ->
   port_status scaling_status = "FAILED") /\
  (forall os self blueprint_id entity_identifier,
      reported_status (patch_request os self blueprint_id entity_identifier
                                     scaling_status None)
      = Some (JString (port_status scaling_status))).
Proof.
  split; [ | split ].
  - unfold port_status. rewrite is_successful_nocase. intros ->. reflexivity.
  - unfold port_status. rewrite is_successful_nocase. intros _ ->. reflexivity.
  - intros. apply reported_status_patch_request. exact I.
Qed.

Lemma port_status_case_insensitive_witness :
  port_status "SuCCeSS" = "COMPLETED" /\ port_status "failure" = "FAILED".
Proof.
  split.
  - apply (proj1 (port_status_case_insensitive "SuCCeSS")). reflexivity.
  - apply (proj1 (proj2 (port_status_case_insensitive "failure")));
      [ discriminate | reflexivity ].
Defined.

Lemma authenticate_if_needed_cached transport w self :
  truthy (access_token self) = true ->
  authenticate_if_needed transport (w, self) = (inr tt, (w, self)).
Proof.
  intros Htok. unfold authenticate_if_needed. unfold_monad. cbn.
  rewrite Htok. reflexivity.
Qed.

Lemma authenticate_if_needed_fresh transport w self response body tok :
  truthy (access_token self) = false ->
  transport (http_log w) (auth_request self) = inr response ->
  raise_for_status response = inr tt ->
  json_body response = Some body ->
  getitem_str body "accessToken" = inr tok ->
  authenticate_if_needed transport (w, self)
  = (inr tt, ({| http_log := http_log w ++ [auth_request self];
                 stdout := stdout w ++ [PAuthenticated] |},
              set_access_token tok self)).
Proof.
  intros Htok Hsend Hstatus Hbody Hkey.
  unfold authenticate_if_needed, authenticate, response_json. unfold_monad. cbn.
  rewrite Htok. cbn. rewrite Hsend. cbn. rewrite Hstatus. cbn.
  rewrite Hbody. cbn. rewrite Hkey. reflexivity.
Qed.

Lemma authenticate_if_needed_effect transport w self :
  let out := authenticate_if_needed transport (w, self) in
  (forall code, fst out <> inl (SystemExit code)) /\
  (truthy (access_token self) = false ->
   http_log (fst (snd out)) = (http_log w ++ [auth_request self])%list) /\
  (forall e, fst out = inl (Exc e) -> snd (snd out) = self).
Proof.
  unfold authenticate_if_needed, authenticate. unfold_monad. cbn.
  destruct (truthy (access_token self)); cbn.
  - repeat split; intros; congruence.
  - destruct (transport (http_log w) (auth_request self)) as [e | response]; cbn;
      [ repeat split; intros; congruence | ].
    destruct (raise_for_status response); cbn;
      [ repeat split; intros; congruence | ].
    destruct (response_json response) as [e | body]; cbn;
      [ repeat split; intros; congruence | ].
    destruct (getitem_str body "accessToken"); cbn;
      repeat split; intros; congruence.
Qed.

Lemma update_entity_status_run transport os blueprint_id entity_identifier
      scaling_status details w self w1 self1 :
  authenticate_if_needed transport (w, self) = (inr tt, (w1, self1)) ->
  let rq := patch_request os self1 blueprint_id entity_identifier scaling_status
                          details in
  let out := update_entity_status transport os blueprint_id entity_identifier
                                  scaling_status details (w, self) in
  fst out = patch_result (transport (http_log w1) rq) /\
  http_log (fst (snd out)) = (http_log w1 ++ [rq])%list /\
  snd (snd out) = self1 /\
  stdout (fst (snd out))
  = (stdout w1 ++ PUpdating entity_identifier (port_status scaling_status)
               :: patch_prints (transport (http_log w1) rq))%list.
Proof.
  intros Hpre rq out. subst rq out.
  unfold update_entity_status, patch_result, patch_prints.
  remember (authenticate_if_needed transport) as pre eqn:Hdef. clear Hdef.
  unfold_monad. rewrite Hpre. cbn.
  destruct (transport _ _) as [e | response]; cbn; [ auto | ].
  destruct (not_in_200_201 (status_code response)); cbn;
    [ rewrite <- app_assoc; auto | ].
  destruct (response_json response); cbn; rewrite <- ?app_assoc; auto.
Qed.

Lemma update_entity_status_no_exit transport os blueprint_id entity_identifier
      scaling_status details s code :
  fst (update_entity_status transport os blueprint_id entity_identifier
                            scaling_status details s) <> inl (SystemExit code).
Proof.
  destruct s as [w self].
  destruct (authenticate_if_needed_effect transport w self) as (Hexit & _).
  destruct (authenticate_if_needed transport (w, self)) as [r [w1 self1]] eqn:Hpre.
  cbn in Hexit. destruct r as [[e | c] | []].
  - unfold update_entity_status.
    remember (authenticate_if_needed transport) as pre eqn:Hdef. clear Hdef.
    unfold_monad. rewrite Hpre. cbn. congruence.
  - exfalso. eapply Hexit. reflexivity.
  - rewrite (proj1 (update_entity_status_run transport os blueprint_id
                      entity_identifier scaling_status details w self w1 self1 Hpre)).
    unfold patch_result.
    destruct (transport _ _) as [e | response]; [ congruence | ].
    destruct (not_in_200_201 _); [ congruence | ].
    destruct (response_json response); congruence.
Qed.

(** What [main] makes of the one [update_entity_status] call it places. *)
Lemma reporter_main_run transport os w :
  Reporter.missing_vars os = [] ->
  let self := Reporter.init (getenv_default os "PORT_CLIENT_ID" "")
                            (getenv_default os "PORT_CLIENT_SECRET" "") in
  let call := update_entity_status transport os
                (getenv_default os "BLUEPRINT_ID" "spot_ocean_cluster")
                (getenv_default os "CLUSTER_ID" "" ++ "-heartbeat")
                (getenv_default os "SCALING_STATUS" "unknown")
                (Some (main_details os)) (w, self) in
  let out := Reporter.main transport os (w, tt) in
  fst out = inl (SystemExit 0) /\
  http_log (fst (snd out)) = http_log (fst (snd call)) /\
  stdout (fst (snd out))
  = (stdout (fst (snd call)) ++
     [match fst call with
      | inl (Exc e) => PPortError e
      | _ => PPortCompleted
      end])%list.
Proof.
  intros Hmissing self call out. subst out. unfold Reporter.main.
  rewrite Hmissing. fold self.
  pose proof (update_entity_status_no_exit transport os
                (getenv_default os "BLUEPRINT_ID" "spot_ocean_cluster")
                (getenv_default os "CLUSTER_ID" "" ++ "-heartbeat")
                (getenv_default os "SCALING_STATUS" "unknown")
                (Some (main_details os)) (w, self)) as Hexit.
  fold call in Hexit. unfold_monad.
  change (update_entity_status transport os
            (getenv_default os "BLUEPRINT_ID" "spot_ocean_cluster")
            (getenv_default os "CLUSTER_ID" "" ++ "-heartbeat")
            (getenv_default os "SCALING_STATUS" "unknown")
            (Some (main_details os)) (w, self)) with call.
  destruct call as [r [w1 self1]]. cbn in *.
  destruct r as [[e | code] | v]; cbn; auto.
  exfalso. eapply Hexit. reflexivity.
Qed.

(** The reporter process always ends with status 0. *)
Lemma reporter_main_exit_zero transport os w :
  fst (Reporter.main transport os (w, tt)) = inl (SystemExit 0).
Proof.
  destruct (Reporter.missing_vars os) eqn:Hmissing.
  - apply (reporter_main_run transport os w Hmissing).
  - unfold Reporter.main. rewrite Hmissing. reflexivity.
Qed.

(** C3, as the claim states it, fails: with a token in hand and the PATCH
    call cut by a connection error, [update_entity_status] raises that error
    to its caller; so does a rejected authentication. *)
Lemma update_entity_status_raises :
  let dropped := by_method (fun m => match m with
                                     | POST => token_response
                                     | _ => inl (RequestException "connection reset")
                                     end) in
  let rejected := by_method (fun _ => response_of 401 "Unauthorized" None) in
  let s := (empty_world, Reporter.init "port-id" "port-secret") in
  fst (update_entity_status dropped reporter_env "spot_ocean_cluster"
                            "o-12ab34cd-heartbeat" "success" None s)
  = inl (Exc (RequestException "connection reset")) /\
  fst (update_entity_status rejected reporter_env "spot_ocean_cluster"
                            "o-12ab34cd-heartbeat" "success" None s)
  = inl (Exc (HTTPError {| status_code := 401; text := "Unauthorized";
                           json_body := None |})).
Proof. split; reflexivity. Qed.

(** C3, amended. Once a token is held, a PATCH answered with a status
    outside [200, 201] is printed as a warning and [update_entity_status]
    returns the empty dict. Whatever [update_entity_status] raises instead
    (a transport failure, a failed authentication, an undecodable body) is
    caught by [main], which prints it; and [main] always exits with status
    0. *)
Theorem update_entity_status_soft_failure transport os w :
  (forall blueprint_id entity_identifier scaling_status details self w1 self1 response,
      authenticate_if_needed transport (w, self) = (inr tt, (w1, self1)) ->
      transport (http_log w1)
                (patch_request os self1 blueprint_id entity_identifier
                               scaling_status details) = inr response ->
      not_in_200_201 (status_code response) = true ->
      let out := update_entity_status transport os blueprint_id entity_identifier
                                      scaling_status details (w, self) in
      fst out = inr (JObject []) /\
      stdout (fst (snd out))
      = (stdout w1 ++ [PUpdating entity_identifier (port_status scaling_status);
                       PPortWarning (status_code response) (text response)])%list) /\
  fst (Reporter.main transport os (w, tt)) = inl (SystemExit 0) /\
  (Reporter.missing_vars os = [] ->
   forall e,
     fst (update_entity_status transport os
            (getenv_default os "BLUEPRINT_ID" "spot_ocean_cluster")
            (getenv_default os "CLUSTER_ID" "" ++ "-heartbeat")
            (getenv_default os "SCALING_STATUS" "unknown")
            (Some (main_details os))
            (w, Reporter.init (getenv_default os "PORT_CLIENT_ID" "")
                              (getenv_default os "PORT_CLIENT_SECRET" "")))
     = inl (Exc e) ->
     exists printed,
       stdout (fst (snd (Reporter.main transport os (w, tt))))
       = (printed ++ [PPortError e])%list).
Proof.
  split; [ | split ].
  - intros blueprint_id entity_identifier scaling_status details self w1 self1
           response Hpre Hsend Hcode out. subst out.
    destruct (update_entity_status_run transport os blueprint_id
                entity_identifier scaling_status details w self w1 self1 Hpre)
      as (Hres & _ & _ & Hout).
    rewrite Hres, Hout, Hsend. unfold patch_result, patch_prints.
    rewrite Hcode. split; reflexivity.
  - apply reporter_main_exit_zero.
  - intros Hmissing e Hraise.
    destruct (reporter_main_run transport os w Hmissing) as (_ & _ & Hout).
    rewrite Hout, Hraise. eexists. reflexivity.
Qed.

Lemma update_entity_status_soft_failure_witness :
  let transport := by_method (fun m => match m with
                                       | POST => token_response
                                       | _ => response_of 500 "boom" None
                                       end) in
  fst (update_entity_status transport reporter_env "spot_ocean_cluster"
                            "o-12ab34cd-heartbeat" "success" None
                            (empty_world, Reporter.init "port-id" "port-secret"))
  = inr (JObject []).
Proof.
  intros transport.
  eapply (proj1 (update_entity_status_soft_failure transport reporter_env
                                                   empty_world));
    reflexivity.
Defined.

(** With a token in hand a call sends its PATCH and nothing else, and leaves
    the instance as it was. *)
Lemma run_calls_cached transport os self calls :
  truthy (access_token self) = true ->
  forall w,
    let s := run_calls transport os calls (w, self) in
    snd s = self /\
    http_log (fst s) = (http_log w ++ map (call_request os self) calls)%list.
Proof.
  intros Htok. induction calls as [ | c calls IH]; intros w; cbn.
  - rewrite app_nil_r. auto.
  - destruct (update_entity_status_run transport os (call_blueprint c)
                (call_entity c) (call_status c) (call_details c) w self w self
                (authenticate_if_needed_cached transport w self Htok))
      as (_ & Hlog & Hself & _).
    destruct (update_entity_status transport os (call_blueprint c) (call_entity c)
                (call_status c) (call_details c) (w, self)) as [r [w1 self1]].
    cbn in Hlog, Hself. subst self1. cbn [snd].
    destruct (IH w1) as (IHself & IHlog). split; [ exact IHself | ].
    rewrite IHlog, Hlog, <- app_assoc. reflexivity.
Qed.

(** C8, as the claim states it, fails: when the token endpoint refuses the
    first request, the first call leaves the instance without a token, and
    the second call authenticates again. *)
Lemma reporter_reauthenticates_after_failure :
  let s0 := (empty_world, Reporter.init "port-id" "port-secret") in
  let s1 := run_calls flaky_auth reporter_env [sample_call] s0 in
  let s2 := run_calls flaky_auth reporter_env [sample_call] s1 in
  access_token (snd s1) = JNull /\
  map method (http_log (fst s1)) = [POST] /\
  access_token (snd s2) = JString "tok-1" /\
  map method (http_log (fst s2)) = [POST; POST; PATCH].
Proof. repeat split; reflexivity. Qed.

(** C8, amended. An instance starts with no token. If the authentication of
    its first call succeeds with a non-empty token, the instance holds that
    token from then on: over that call and any calls that follow, the token
    request is sent once, first, and every call sends one PATCH carrying the
    cached token. *)
Theorem reporter_authenticates_once transport os client_id client_secret w
        response body tok first later :
  let self0 := Reporter.init client_id client_secret in
  transport (http_log w) (auth_request self0) = inr response ->
  raise_for_status response = inr tt ->
  json_body response = Some body ->
  getitem_str body "accessToken" = inr tok ->
  truthy tok = true ->
  let s1 := run_calls transport os [first] (w, self0) in
  let s2 := run_calls transport os later s1 in
  truthy (access_token self0) = false /\
  access_token (snd s1) = tok /\
  snd s2 = snd s1 /\
  http_log (fst s2)
  = (http_log w ++ auth_request self0
       :: map (call_request os (set_access_token tok self0)) (first :: later))%list /\
  (forall c, In c (first :: later) ->
             dict_get "Authorization"
                      (headers (call_request os (set_access_token tok self0) c))
             = Some tok).
Proof.
  intros self0 Hsend Hstatus Hbody Hkey Htok s1 s2.
  assert (Hfresh : truthy (access_token self0) = false) by reflexivity.
  pose proof (authenticate_if_needed_fresh transport w self0 response body tok
                Hfresh Hsend Hstatus Hbody Hkey) as Hpre.
  destruct (update_entity_status_run transport os (call_blueprint first)
              (call_entity first) (call_status first) (call_details first)
              w self0 _ _ Hpre) as (_ & Hlog & Hself & _).
  assert (Hs1 : snd s1 = set_access_token tok self0) by exact Hself.
  assert (Hl1 : http_log (fst s1)
                = (http_log w ++ [auth_request self0;
                                  call_request os (set_access_token tok self0) first])%list).
  { subst s1. cbn [run_calls]. rewrite Hlog. cbn. rewrite <- app_assoc. reflexivity. }
  destruct s1 as [w1 self1]. cbn in Hs1, Hl1. subst self1.
  destruct (run_calls_cached transport os (set_access_token tok self0) later Htok w1)
    as (Hs2 & Hl2).
  fold s2 in Hs2, Hl2.
  repeat split; try assumption; try reflexivity.
  rewrite Hl2, Hl1, <- app_assoc. reflexivity.
Qed.

Lemma reporter_authenticates_once_witness :
  let transport := by_method (fun m => match m with
                                       | POST => token_response
                                       | _ => response_of 200 "{}" (Some (JObject []))
                                       end) in
  let s2 := run_calls transport reporter_env [sample_call; sample_call; sample_call]
                      (empty_world, Reporter.init "port-id" "port-secret") in
  access_token (snd s2) = JString "tok-1" /\
  map method (http_log (fst s2)) = [POST; PATCH; PATCH; PATCH].
Proof.
  intros transport s2.
  destruct (reporter_authenticates_once transport reporter_env "port-id" "port-secret"
              empty_world _ _ (JString "tok-1") sample_call [sample_call; sample_call]
              eq_refl eq_refl eq_refl eq_refl eq_refl)
    as (_ & Htok & Hself & Hlog & _).
  cbn [run_calls] in *. fold s2 in Hself, Hlog. split.
  - rewrite Hself. exact Htok.
  - rewrite Hlog. reflexivity.
Defined.

(** C10. The empty status and the default [unknown] that [main] puts in
    place of an unset [SCALING_STATUS] are both mapped to [FAILED]; the
    mapping has one of its two values on every string; and when
    [SCALING_STATUS] is unset and authentication succeeds, the PATCH sent by
    [main] reports [FAILED]. *)
Theorem port_status_default_failed :
  port_status "" = "FAILED" /\
  port_status "unknown" = "FAILED" /\
  (forall s, port_status s = "COMPLETED" \/ port_status s = "FAILED") /\
  (forall transport os w response body tok,
      Reporter.missing_vars os = [] ->
      getenv os "SCALING_STATUS" = None ->
      let self0 := Reporter.init (getenv_default os "PORT_CLIENT_ID" "")
                                 (getenv_default os "PORT_CLIENT_SECRET" "") in
      transport (http_log w) (auth_request self0) = inr response ->
      raise_for_status response = inr tt ->
      json_body response = Some body ->
      getitem_str body "accessToken" = inr tok ->
      exists patch,
        http_log (fst (snd (Reporter.main transport os (w, tt))))
        = (http_log w ++ [auth_request self0; patch])%list /\
        method patch = PATCH /\
        reported_status patch = Some (JString "FAILED")).
Proof.
  split; [ reflexivity | split; [ reflexivity | split ] ].
  - intros s. unfold port_status. destruct (is_successful s); auto.
  - intros transport os w response body tok Hmissing Hunset self0 Hsend Hstatus
           Hbody Hkey.
    destruct (reporter_main_run transport os w Hmissing) as (_ & Hlog & _).
    fold self0 in Hlog.
    pose proof (authenticate_if_needed_fresh transport w self0 response body tok
                  eq_refl Hsend Hstatus Hbody Hkey) as Hpre.
    destruct (update_entity_status_run transport os
                (getenv_default os "BLUEPRINT_ID" "spot_ocean_cluster")
                (getenv_default os "CLUSTER_ID" "" ++ "-heartbeat")
                (getenv_default os "SCALING_STATUS" "unknown")
                (Some (main_details os)) w self0 _ _ Hpre) as (_ & Hcall & _).
    eexists. split; [ | split ].
    + rewrite Hlog, Hcall. cbn. rewrite <- app_assoc. reflexivity.
    + reflexivity.
    + rewrite reported_status_patch_request by reflexivity.
      unfold getenv_default. unfold getenv in Hunset. rewrite Hunset. reflexivity.
Qed.

Lemma port_status_default_failed_witness :
  let transport := by_method (fun m => match m with
                                       | POST => token_response
                                       | _ => response_of 200 "{}" (Some (JObject []))
                                       end) in
  map reported_status
      (http_log (fst (snd (Reporter.main transport reporter_env (empty_world, tt)))))
  = [None; Some (JString "FAILED")].
Proof.
  intros transport.
  destruct (proj2 (proj2 (proj2 port_status_default_failed))
                  transport reporter_env empty_world _ _ (JString "tok-1")
                  eq_refl eq_refl eq_refl eq_refl eq_refl eq_refl)
    as (patch & Hlog & _ & Hstatus).
  rewrite Hlog. cbn. rewrite Hstatus. reflexivity.
Defined.

(** ** Further properties of the scaler *)

(** Everything [scale_vng] prints, in order. *)
Lemma scale_vng_stdout transport cluster_id vng_id min_capacity max_capacity reason
      w self :
  let out := Scaler.scale_vng transport cluster_id vng_id min_capacity max_capacity
                              reason (w, self) in
  stdout (fst (snd out))
  = (stdout w ++ PFetching vng_id
       :: match fst (Scaler.get_launch_spec_details transport vng_id (w, self)) with
          | inl (Exc e) => [PFetchWarning e]
          | _ => []
          end
       ++ PScaling vng_id min_capacity max_capacity
       :: (if (reason =? "")%string then [] else [PReason reason])
       ++ write_prints
            (transport (http_log w ++ [Scaler.get_request self vng_id])%list
                       (Scaler.put_request self vng_id min_capacity max_capacity)))%list.
Proof.
  pose proof (get_launch_spec_details_effect transport vng_id w self) as H.
  cbv zeta in *. destruct H as (Hlog & Hout & Hself & Hexit).
  unfold Scaler.scale_vng, write_prints, write_result.
  remember (Scaler.get_launch_spec_details transport vng_id) as fetch eqn:Hfetch.
  clear Hfetch. unfold_monad. cbn.
  destruct (fetch (w, self)) as [r [w1 self1]].
  cbn in Hlog, Hout, Hself, Hexit. subst self1.
  destruct r as [[e | code] | v]; [ | exfalso; eapply Hexit; reflexivity | ];
    cbn; destruct (reason =? "")%string; cbn; rewrite Hlog, Hout;
    (destruct (transport _ _) as [e' | response]; cbn;
     [ | unfold raise_for_status;
         destruct (not_in_200_201 (status_code response)); cbn;
         [ destruct (_ && _); cbn | ];
         destruct (response_json response); cbn ]);
    repeat (rewrite <- app_assoc; cbn); reflexivity.
Qed.

Lemma raise_for_status_error response :
  400 <= status_code response < 600 ->
  raise_for_status response = inl (HTTPError response).
Proof.
  intros Hcode. unfold raise_for_status.
  replace (400 <=? status_code response) with true by (symmetry; apply Z.leb_le; lia).
  replace (status_code response <? 600) with true by (symmetry; apply Z.ltb_lt; lia).
  reflexivity.
Qed.

(** X1. [get_launch_spec_details] fails with what went wrong: the exception
    of the transport as raised, an [HTTPError] carrying the response for a
    4xx or 5xx status, a [JSONDecodeError] for a body that is not JSON. *)
Theorem get_launch_spec_details_failure transport vng_id w self :
  let out := fst (Scaler.get_launch_spec_details transport vng_id (w, self)) in
  let answer := transport (http_log w) (Scaler.get_request self vng_id) in
  (forall e, answer = inl e -> out = inl (Exc e)) /\
  (forall response,
      answer = inr response -> 400 <= status_code response < 600 ->
      out = inl (Exc (HTTPError response))) /\
  (forall response,
      answer = inr response -> raise_for_status response = inr tt ->
      json_body response = None ->
      out = inl (Exc JSONDecodeError)).
Proof.
  unfold Scaler.get_launch_spec_details, response_json. unfold_monad. cbn.
  split; [ | split ].
  - intros e ->. reflexivity.
  - intros response -> Hcode. cbn.
    rewrite (raise_for_status_error response Hcode). reflexivity.
  - intros response -> Hstatus Hbody. cbn. rewrite Hstatus. cbn.
    rewrite Hbody. reflexivity.
Qed.

Lemma get_launch_spec_details_failure_witness :
  fst (Scaler.get_launch_spec_details
         (by_method (fun _ => response_of 404 "not found" None))
         "ols-a1b2c3d4" (empty_world, Scaler.init "t" "a"))
  = inl (Exc (HTTPError {| status_code := 404; text := "not found";
                           json_body := None |})).
Proof.
  apply (proj1 (proj2 (get_launch_spec_details_failure
                         (by_method (fun _ => response_of 404 "not found" None))
                         "ols-a1b2c3d4" empty_world (Scaler.init "t" "a"))));
    [ reflexivity | cbn; lia ].
Defined.

(** X2. An enveloped body that does not hold a first item makes
    [get_launch_spec_details] fail: [KeyError] when the wrapper has no
    [items], [IndexError] when the list is empty, [TypeError] when the value
    under [response] is not an object. *)
Theorem get_launch_spec_details_bad_envelope transport vng_id w self response fields
        wrapped :
  transport (http_log w) (Scaler.get_request self vng_id) = inr response ->
  raise_for_status response = inr tt ->
  json_body response = Some (JObject fields) ->
  dict_get "response" fields = Some wrapped ->
  let out := fst (Scaler.get_launch_spec_details transport vng_id (w, self)) in
  (forall wrapper, wrapped = JObject wrapper -> dict_get "items" wrapper = None ->
                   out = inl (Exc (KeyError "items"))) /\
  (forall wrapper, wrapped = JObject wrapper ->
                   dict_get "items" wrapper = Some (JList []) ->
                   out = inl (Exc IndexError)) /\
  ((forall wrapper, wrapped <> JObject wrapper) -> out = inl (Exc TypeError)).
Proof.
  intros Hget Hstatus Hbody Hresp out. subst out.
  unfold Scaler.get_launch_spec_details, response_json. unfold_monad. cbn.
  rewrite Hget. cbn. rewrite Hstatus. cbn. rewrite Hbody. cbn.
  unfold Scaler.unwrap_launch_spec. cbn. rewrite Hresp. cbn.
  split; [ | split ].
  - intros wrapper -> Hitems. cbn. rewrite Hitems. reflexivity.
  - intros wrapper -> Hitems. cbn. rewrite Hitems. reflexivity.
  - intros Hshape. destruct wrapped; try reflexivity.
    exfalso. eapply Hshape. reflexivity.
Qed.

Lemma get_launch_spec_details_bad_envelope_witness :
  fst (Scaler.get_launch_spec_details
         (by_method (fun _ => response_of 200 "..."
                      (Some (JObject [("response",
                                       JObject [("items", JList []);
                                                ("count", JInt 0)])]))))
         "ols-a1b2c3d4" (empty_world, Scaler.init "t" "a"))
  = inl (Exc IndexError).
Proof.
  eapply (proj1 (proj2 (get_launch_spec_details_bad_envelope
                          (by_method (fun _ => response_of 200 "..."
                             (Some (JObject [("response",
                                              JObject [("items", JList []);
                                                       ("count", JInt 0)])]))))
                          "ols-a1b2c3d4" empty_world (Scaler.init "t" "a") _ _ _
                          eq_refl eq_refl eq_refl eq_refl)));
    reflexivity.
Defined.

(** X3. A body that is not an object: a list without the string [response]
    among its items, or a string that does not contain it, is returned as it
    is; a list or a string that does, and any number, boolean or null, make
    [get_launch_spec_details] fail with [TypeError]. *)
Theorem get_launch_spec_details_other_bodies transport vng_id w self response body :
  transport (http_log w) (Scaler.get_request self vng_id) = inr response ->
  raise_for_status response = inr tt ->
  json_body response = Some body ->
  (forall fields, body <> JObject fields) ->
  fst (Scaler.get_launch_spec_details transport vng_id (w, self))
  = match contains_str "response" body with
    | inr false => inr body
    | _ => inl (Exc TypeError)
    end.
Proof.
  intros Hget Hstatus Hbody Hshape.
  unfold Scaler.get_launch_spec_details, response_json. unfold_monad. cbn.
  rewrite Hget. cbn. rewrite Hstatus. cbn. rewrite Hbody. cbn.
  unfold Scaler.unwrap_launch_spec.
  destruct body; cbn; try reflexivity.
  - destruct (str_contains "response" s); reflexivity.
  - destruct (existsb _ items); reflexivity.
  - exfalso. eapply Hshape. reflexivity.
Qed.

Lemma get_launch_spec_details_other_bodies_witness :
  fst (Scaler.get_launch_spec_details
         (by_method (fun _ => response_of 200 "..."
                      (Some (JString "no response body"))))
         "ols-a1b2c3d4" (empty_world, Scaler.init "t" "a"))
  = inl (Exc TypeError).
Proof.
  apply (get_launch_spec_details_other_bodies
           (by_method (fun _ => response_of 200 "..."
                        (Some (JString "no response body"))))
           "ols-a1b2c3d4" empty_world (Scaler.init "t" "a") _ _
           eq_refl eq_refl eq_refl).
  intros fields. discriminate.
Defined.

(** X4. A write answered with status 200 or 201 and a JSON body makes
    [scale_vng] return that body as decoded, whatever the read did; no error
    line is printed and the last thing printed is that body. *)
Theorem scale_vng_success_returns_body transport cluster_id vng_id min_capacity
        max_capacity reason w self response result :
  transport (http_log w ++ [Scaler.get_request self vng_id])%list
            (Scaler.put_request self vng_id min_capacity max_capacity)
  = inr response ->
  status_code response = 200 \/ status_code response = 201 ->
  json_body response = Some result ->
  let out := Scaler.scale_vng transport cluster_id vng_id min_capacity max_capacity
                              reason (w, self) in
  fst out = inr result /\
  stdout (fst (snd out))
  = (stdout w ++ PFetching vng_id
       :: match fst (Scaler.get_launch_spec_details transport vng_id (w, self)) with
          | inl (Exc e) => [PFetchWarning e]
          | _ => []
          end
       ++ PScaling vng_id min_capacity max_capacity
       :: (if (reason =? "")%string then [] else [PReason reason])
       ++ [PSubmitted result])%list.
Proof.
  intros Hput Hcode Hbody out. subst out.
  assert (Hin : not_in_200_201 (status_code response) = false).
  { unfold not_in_200_201. destruct Hcode as [-> | ->]; reflexivity. }
  split.
  - rewrite (proj1 (scale_vng_run transport cluster_id vng_id min_capacity
                                  max_capacity reason w self)), Hput.
    unfold write_result, response_json. rewrite Hin, Hbody. reflexivity.
  - rewrite scale_vng_stdout, Hput. unfold write_prints, write_result, response_json.
    rewrite Hin, Hbody. reflexivity.
Qed.

Lemma scale_vng_success_returns_body_witness :
  let echoed := JObject [("response", JObject [("status", JInt 200)])] in
  fst (Scaler.scale_vng
         (by_method (fun m => match m with
                              | GET => inl (RequestException "timed out")
                              | _ => response_of 200 "..." (Some echoed)
                              end))
         "" "abc123" 3 10 "" (empty_world, Scaler.init "t" "a"))
  = inr echoed.
Proof.
  intros echoed.
  eapply (scale_vng_success_returns_body
            (by_method (fun m => match m with
                                 | GET => inl (RequestException "timed out")
                                 | _ => response_of 200 "..." (Some echoed)
                                 end))
            "" "abc123" 3 10 "" empty_world (Scaler.init "t" "a") _ echoed eq_refl);
    [ left | ]; reflexivity.
Defined.

(** X5. When the read fails, [scale_vng] prints the warning with the
    exception right after the fetching line and goes on to the scaling
    lines; when the read succeeds no warning is printed. *)
Theorem scale_vng_fetch_warning transport cluster_id vng_id min_capacity max_capacity
        reason w self :
  let fetched := fst (Scaler.get_launch_spec_details transport vng_id (w, self)) in
  let out := Scaler.scale_vng transport cluster_id vng_id min_capacity max_capacity
                              reason (w, self) in
  (forall e, fetched = inl (Exc e) ->
     exists rest,
       stdout (fst (snd out))
       = (stdout w ++ PFetching vng_id :: PFetchWarning e
            :: PScaling vng_id min_capacity max_capacity :: rest)%list) /\
  (forall current, fetched = inr current ->
     exists rest,
       stdout (fst (snd out))
       = (stdout w ++ PFetching vng_id
            :: PScaling vng_id min_capacity max_capacity :: rest)%list /\
       forall e, ~ In (PFetchWarning e) rest).
Proof.
  intros fetched out. subst fetched out. rewrite scale_vng_stdout.
  split.
  - intros e ->. eexists. reflexivity.
  - intros current ->. eexists. split; [ reflexivity | ].
    intros e Hin. apply in_app_or in Hin. destruct Hin as [Hin | Hin].
    + destruct (reason =? "")%string; cbn in Hin; intuition discriminate.
    + unfold write_prints in Hin.
      destruct (transport _ _) as [e' | response]; [ exact Hin | ].
      apply in_app_or in Hin. destruct Hin as [Hin | Hin].
      * destruct (not_in_200_201 _); cbn in Hin; intuition discriminate.
      * destruct (write_result (inr response)); cbn in Hin; intuition discriminate.
Qed.

Lemma scale_vng_fetch_warning_witness :
  exists rest,
    stdout (fst (snd (Scaler.scale_vng
                        (by_method (fun m => match m with
                                             | GET => inl (RequestException "timed out")
                                             | _ => response_of 200 "{}" (Some (JObject []))
                                             end))
                        "" "abc123" 3 10 "" (empty_world, Scaler.init "t" "a"))))
    = PFetching "abc123" :: PFetchWarning (RequestException "timed out")
        :: PScaling "abc123" 3 10 :: rest.
Proof.
  apply (proj1 (scale_vng_fetch_warning
                  (by_method (fun m => match m with
                                       | GET => inl (RequestException "timed out")
                                       | _ => response_of 200 "{}" (Some (JObject []))
                                       end))
                  "" "abc123" 3 10 "" empty_world (Scaler.init "t" "a"))).
  reflexivity.
Defined.

(** X6. The write is fatal to [scale_vng]: an exception raised by the
    transport on the PUT comes out as raised, and an answer with status 200
    or 201 whose body is not JSON comes out as [JSONDecodeError]. *)
Theorem scale_vng_write_failure transport cluster_id vng_id min_capacity max_capacity
        reason w self :
  let answer := transport (http_log w ++ [Scaler.get_request self vng_id])%list
                          (Scaler.put_request self vng_id min_capacity max_capacity) in
  let out := Scaler.scale_vng transport cluster_id vng_id min_capacity max_capacity
                              reason (w, self) in
  (forall e, answer = inl e -> fst out = inl (Exc e)) /\
  (forall response,
      answer = inr response ->
      status_code response = 200 \/ status_code response = 201 ->
      json_body response = None ->
      fst out = inl (Exc JSONDecodeError)).
Proof.
  intros answer out. subst answer out.
  rewrite (proj1 (scale_vng_run transport cluster_id vng_id min_capacity
                                max_capacity reason w self)).
  split.
  - intros e ->. reflexivity.
  - intros response -> Hcode Hbody. unfold write_result, response_json, not_in_200_201.
    rewrite Hbody. destruct Hcode as [-> | ->]; reflexivity.
Qed.

Lemma scale_vng_write_failure_witness :
  fst (Scaler.scale_vng
         (by_method (fun m => match m with
                              | PUT => inl (RequestException "connection refused")
                              | _ => response_of 200 "{}" (Some (JObject []))
                              end))
         "" "abc123" 3 10 "" (empty_world, Scaler.init "t" "a"))
  = inl (Exc (RequestException "connection refused")).
Proof.
  apply (proj1 (scale_vng_write_failure
                  (by_method (fun m => match m with
                                       | PUT => inl (RequestException "connection refused")
                                       | _ => response_of 200 "{}" (Some (JObject []))
                                       end))
                  "" "abc123" 3 10 "" empty_world (Scaler.init "t" "a"))).
  reflexivity.
Defined.

Lemma write_result_no_exit o code : write_result o <> inl (SystemExit code).
Proof.
  unfold write_result. destruct o as [e | response]; [ congruence | ].
  destruct (not_in_200_201 _); [ destruct (raise_for_status response) | ];
    try destruct (response_json response); congruence.
Qed.

Lemma write_result_value o :
  (exists v, write_result o = inr v) <->
  (exists response v, o = inr response /\ raise_for_status response = inr tt /\
                      json_body response = Some v).
Proof.
  unfold write_result, response_json. split.
  - intros [v Hv]. destruct o as [e | response]; [ discriminate | ].
    exists response.
    destruct (not_in_200_201 (status_code response)) eqn:Hin.
    + destruct (raise_for_status response) as [e | []] eqn:Hst; [ discriminate | ].
      destruct (json_body response) as [body | ]; [ | discriminate ].
      exists body. auto.
    + destruct (json_body response) as [body | ]; [ | discriminate ].
      exists body. repeat split.
      unfold not_in_200_201 in Hin. unfold raise_for_status.
      apply negb_false_iff, orb_true_iff in Hin.
      destruct Hin as [Hin | Hin]; apply Z.eqb_eq in Hin; rewrite Hin; reflexivity.
  - intros (response & v & -> & Hst & Hbody). rewrite Hst, Hbody.
    exists v. destruct (not_in_200_201 _); reflexivity.
Qed.

(** What [main] makes of a pair that parses and passes the validation. *)
Lemma scaler_main_run transport py_int os w min_capacity max_capacity :
  Scaler.missing_vars os = [] ->
  py_int (getenv_default os "MIN_CAPACITY" "") = Some min_capacity ->
  py_int (getenv_default os "MAX_CAPACITY" "") = Some max_capacity ->
  1 <= min_capacity -> min_capacity <= max_capacity ->
  let scaler := Scaler.init (getenv_default os "SPOT_TOKEN" "")
                            (getenv_default os "SPOT_ACCOUNT_ID" "") in
  let vng_id := getenv_default os "VNG_ID" "" in
  let answer := transport (http_log w ++ [Scaler.get_request scaler vng_id])%list
                          (Scaler.put_request scaler vng_id min_capacity max_capacity) in
  let out := Scaler.main transport py_int os (w, tt) in
  fst out = inl (SystemExit (match write_result answer with
                             | inr _ => 0
                             | inl _ => 1
                             end)) /\
  http_log (fst (snd out))
  = (http_log w ++ [Scaler.get_request scaler vng_id;
                    Scaler.put_request scaler vng_id min_capacity max_capacity])%list /\
  exists printed,
    stdout (fst (snd out))
    = (stdout w ++ PValidating :: printed ++
         [match write_result answer with
          | inr _ => PSummary vng_id min_capacity max_capacity
                              (getenv_default os "TRIGGERED_BY" "GitHub Actions")
                              (utcnow_isoformat os ++ "Z")
          | inl (Exc e) => PScalingError e
          | inl (SystemExit _) => PValidating
          end])%list.
Proof.
  intros Hmissing Hmin Hmax Hlo Hhi scaler vng_id answer out. subst out.
  unfold Scaler.main. rewrite Hmissing, Hmin, Hmax. fold scaler. fold vng_id.
  set (w0 := {| http_log := http_log w; stdout := stdout w ++ [PValidating] |}).
  destruct (scale_vng_run transport "" vng_id min_capacity max_capacity
              (getenv_default os "REASON" "") w0 scaler) as (Hres & Hlog & _).
  pose proof (scale_vng_stdout transport "" vng_id min_capacity max_capacity
                (getenv_default os "REASON" "") w0 scaler) as Hout.
  cbv zeta in Hout. cbn [http_log w0] in Hres, Hlog. fold answer in Hres, Hout.
  remember (Scaler.scale_vng transport "" vng_id min_capacity max_capacity
                             (getenv_default os "REASON" "")) as call eqn:Hcall.
  clear Hcall. unfold_monad. rewrite (validate_accepts _ _ Hlo Hhi). cbn.
  fold w0. destruct (call (w0, scaler)) as [r [w1 self1]].
  cbn [fst snd] in Hres, Hlog, Hout. subst r.
  assert (Hprinted : exists printed,
             stdout w1 = ((stdout w ++ [PValidating]) ++ printed)%list)
    by (eexists; exact Hout).
  clear Hout. destruct Hprinted as [printed Hout].
  pose proof (write_result_no_exit answer) as Hexit.
  destruct (write_result answer) as [[e | code] | v]; cbn;
    [ | exfalso; eapply Hexit; reflexivity | ];
    (split; [ reflexivity | split; [ exact Hlog | ] ]);
    exists printed; rewrite Hout, <- !app_assoc; reflexivity.
Qed.

(** X7. With all five variables set and a valid pair, [main] exits with
    status 0 exactly when the write is answered, the status of the answer is
    not 4xx or 5xx, and its body is JSON; in every other case it exits with
    status 1. *)
Theorem scaler_main_exit_code transport py_int os w min_capacity max_capacity :
  Scaler.missing_vars os = [] ->
  py_int (getenv_default os "MIN_CAPACITY" "") = Some min_capacity ->
  py_int (getenv_default os "MAX_CAPACITY" "") = Some max_capacity ->
  1 <= min_capacity -> min_capacity <= max_capacity ->
  let scaler := Scaler.init (getenv_default os "SPOT_TOKEN" "")
                            (getenv_default os "SPOT_ACCOUNT_ID" "") in
  let vng_id := getenv_default os "VNG_ID" "" in
  let answer := transport (http_log w ++ [Scaler.get_request scaler vng_id])%list
                          (Scaler.put_request scaler vng_id min_capacity max_capacity) in
  let out := fst (Scaler.main transport py_int os (w, tt)) in
  (out = inl (SystemExit 0) <->
   exists response v, answer = inr response /\ raise_for_status response = inr tt /\
                      json_body response = Some v) /\
  (out = inl (SystemExit 0) \/ out = inl (SystemExit 1)).
Proof.
  intros Hmissing Hmin Hmax Hlo Hhi scaler vng_id answer out. subst out.
  destruct (scaler_main_run transport py_int os w min_capacity max_capacity
              Hmissing Hmin Hmax Hlo Hhi) as (Hexit & _).
  fold scaler vng_id answer in Hexit. rewrite Hexit.
  rewrite <- (write_result_value answer).
  destruct (write_result answer) as [r | v].
  - split; [ | right; reflexivity ].
    split; [ discriminate | intros [v Hv]; discriminate ].
  - split; [ | left; reflexivity ].
    split; [ intros _; exists v; reflexivity | reflexivity ].
Qed.

Lemma scaler_main_exit_code_witness :
  fst (Scaler.main (by_method (fun _ => response_of 200 "{}" (Some (JObject []))))
                   int_of_decimal (scaler_env "3" "10") (empty_world, tt))
  = inl (SystemExit 0).
Proof.
  apply (proj1 (scaler_main_exit_code
                  (by_method (fun _ => response_of 200 "{}" (Some (JObject []))))
                  int_of_decimal (scaler_env "3" "10") empty_world 3 10
                  eq_refl eq_refl eq_refl ltac:(lia) ltac:(lia))).
  eexists. eexists. repeat split; reflexivity.
Defined.

(** X8. When one of the five required variables is unset or empty, [main]
    prints their names, exits with status 1 and sends no request; the names
    printed are exactly those of the five that are unset or empty. *)
Theorem scaler_main_missing_variables transport py_int os w :
  Scaler.missing_vars os <> [] ->
  let out := Scaler.main transport py_int os (w, tt) in
  fst out = inl (SystemExit 1) /\
  http_log (fst (snd out)) = http_log w /\
  stdout (fst (snd out)) = (stdout w ++ [PMissingVars (Scaler.missing_vars os)])%list /\
  (forall name,
      In name (Scaler.missing_vars os) <->
      In name ["SPOT_TOKEN"; "SPOT_ACCOUNT_ID"; "VNG_ID"; "MIN_CAPACITY";
               "MAX_CAPACITY"] /\
      env_missing (getenv os name) = true).
Proof.
  intros Hmissing out. subst out.
  split; [ | split; [ | split ] ];
    try (unfold Scaler.main;
         destruct (Scaler.missing_vars os); [ congruence | reflexivity ]).
  clear Hmissing. intros name. unfold Scaler.missing_vars.
  split; intros Hin; [ split | ];
    destruct (env_missing (getenv os "SPOT_TOKEN")) eqn:H1;
    destruct (env_missing (getenv os "SPOT_ACCOUNT_ID")) eqn:H2;
    destruct (env_missing (getenv os "VNG_ID")) eqn:H3;
    destruct (env_missing (getenv os "MIN_CAPACITY")) eqn:H4;
    destruct (env_missing (getenv os "MAX_CAPACITY")) eqn:H5;
    cbn in *;
    repeat match goal with
           | H : _ \/ _ |- _ => destruct H
           | H : _ /\ _ |- _ => destruct H
           | H : False |- _ => destruct H
           end; subst; auto 10; congruence.
Qed.

Lemma scaler_main_missing_variables_witness :
  let os := os_of [("SPOT_TOKEN", "s3cr3t"); ("VNG_ID", "");
                   ("MIN_CAPACITY", "3"); ("MAX_CAPACITY", "10")] "2024-05-01T10:00:00" in
  let out := Scaler.main (by_method (fun _ => response_of 200 "{}" (Some (JObject []))))
                         int_of_decimal os (empty_world, tt) in
  fst out = inl (SystemExit 1) /\
  stdout (fst (snd out)) = [PMissingVars ["SPOT_ACCOUNT_ID"; "VNG_ID"]].
Proof.
  intros os.
  destruct (scaler_main_missing_variables
              (by_method (fun _ => response_of 200 "{}" (Some (JObject []))))
              int_of_decimal os empty_world) as (Hexit & _ & Hout & _).
  - discriminate.
  - split; [ exact Hexit | exact Hout ].
Defined.

(** X9. When [MIN_CAPACITY] or [MAX_CAPACITY] is set but is not an integer
    literal, [main] prints the parse error, exits with status 1 and sends no
    request; the validation is not reached. *)
Theorem scaler_main_parse_error transport py_int os w :
  Scaler.missing_vars os = [] ->
  py_int (getenv_default os "MIN_CAPACITY" "") = None \/
  py_int (getenv_default os "MAX_CAPACITY" "") = None ->
  let out := Scaler.main transport py_int os (w, tt) in
  fst out = inl (SystemExit 1) /\
  http_log (fst (snd out)) = http_log w /\
  stdout (fst (snd out)) = (stdout w ++ [PParseError])%list.
Proof.
  intros Hmissing Hparse out. subst out. unfold Scaler.main. rewrite Hmissing.
  destruct Hparse as [Hparse | Hparse]; rewrite Hparse;
    [ | destruct (py_int (getenv_default os "MIN_CAPACITY" "")) ];
    repeat split; reflexivity.
Qed.

Lemma scaler_main_parse_error_witness :
  let out := Scaler.main (by_method (fun _ => response_of 200 "{}" (Some (JObject []))))
                         int_of_decimal (scaler_env "3" "ten") (empty_world, tt) in
  fst out = inl (SystemExit 1) /\ http_log (fst (snd out)) = [].
Proof.
  destruct (scaler_main_parse_error
              (by_method (fun _ => response_of 200 "{}" (Some (JObject []))))
              int_of_decimal (scaler_env "3" "ten") empty_world)
    as (Hexit & Hlog & _).
  - reflexivity.
  - right. reflexivity.
  - split; [ exact Hexit | exact Hlog ].
Defined.

(** [main] stops before [scale_vng] when a variable is missing, a capacity
    does not parse, or the pair is not valid. *)
Lemma scaler_main_early_exit transport py_int os w :
  Scaler.missing_vars os <> [] \/
  py_int (getenv_default os "MIN_CAPACITY" "") = None \/
  py_int (getenv_default os "MAX_CAPACITY" "") = None \/
  (exists min_capacity max_capacity,
      py_int (getenv_default os "MIN_CAPACITY" "") = Some min_capacity /\
      py_int (getenv_default os "MAX_CAPACITY" "") = Some max_capacity /\
      (min_capacity < 1 \/ max_capacity < min_capacity)) ->
  let out := Scaler.main transport py_int os (w, tt) in
  fst out = inl (SystemExit 1) /\ http_log (fst (snd out)) = http_log w.
Proof.
  intros Hearly out. subst out. unfold Scaler.main.
  destruct (Scaler.missing_vars os) as [ | name names]; [ | split; reflexivity ].
  destruct Hearly as [Hm | [Hp | [Hp | (mn & mx & Hmin & Hmax & Hbad)]]].
  - congruence.
  - rewrite Hp. split; reflexivity.
  - rewrite Hp. destruct (py_int (getenv_default os "MIN_CAPACITY" ""));
      split; reflexivity.
  - rewrite Hmin, Hmax. destruct (validate_rejects mn mx Hbad) as [msg Hv].
    unfold_monad. rewrite Hv. split; reflexivity.
Qed.

(** X10. With all five variables set and a valid pair, [main] sends exactly
    two requests, to the same launch spec URL built from [VNG_ID], both with
    the bearer token of [SPOT_TOKEN] and the account of [SPOT_ACCOUNT_ID]:
    the GET without body, then the PUT with the two parsed capacities. *)
Theorem scaler_main_requests transport py_int os w min_capacity max_capacity :
  Scaler.missing_vars os = [] ->
  py_int (getenv_default os "MIN_CAPACITY" "") = Some min_capacity ->
  py_int (getenv_default os "MAX_CAPACITY" "") = Some max_capacity ->
  1 <= min_capacity -> min_capacity <= max_capacity ->
  let target := "https://api.spotinst.io/ocean/aws/k8s/launchSpec/"
                ++ getenv_default os "VNG_ID" "" in
  let auth := [("Authorization",
                JString ("Bearer " ++ getenv_default os "SPOT_TOKEN" ""));
               ("Content-Type", JString "application/json")] in
  let account := [("accountId", getenv_default os "SPOT_ACCOUNT_ID" "")] in
  http_log (fst (snd (Scaler.main transport py_int os (w, tt))))
  = (http_log w ++
     [ {| method := GET; url := target; headers := auth; params := account;
          json_payload := None |};
       {| method := PUT; url := target; headers := auth; params := account;
          json_payload :=
            Some (JObject [("launchSpec",
                    JObject [("resourceLimits",
                      JObject [("minInstanceCount", JInt min_capacity);
                               ("maxInstanceCount", JInt max_capacity)])])]) |} ])%list.
Proof.
  intros Hmissing Hmin Hmax Hlo Hhi target auth account.
  destruct (scaler_main_run transport py_int os w min_capacity max_capacity
              Hmissing Hmin Hmax Hlo Hhi) as (_ & Hlog & _).
  rewrite Hlog. reflexivity.
Qed.

Lemma scaler_main_requests_witness :
  map url (http_log (fst (snd (Scaler.main
                                 (by_method (fun _ => response_of 500 "boom" None))
                                 int_of_decimal (scaler_env "3" "10")
                                 (empty_world, tt)))))
  = ["https://api.spotinst.io/ocean/aws/k8s/launchSpec/ols-a1b2c3d4";
     "https://api.spotinst.io/ocean/aws/k8s/launchSpec/ols-a1b2c3d4"].
Proof.
  rewrite (scaler_main_requests (by_method (fun _ => response_of 500 "boom" None))
             int_of_decimal (scaler_env "3" "10") empty_world 3 10
             eq_refl eq_refl eq_refl ltac:(lia) ltac:(lia)).
  reflexivity.
Defined.

(** X11. Whatever the environment and the transport, [main] ends by
    [sys.exit] with status 0 or 1, and it has sent either no request at all
    or one GET followed by one PUT. *)
Theorem scaler_main_always_exits transport py_int os w :
  let out := Scaler.main transport py_int os (w, tt) in
  (fst out = inl (SystemExit 0) \/ fst out = inl (SystemExit 1)) /\
  (http_log (fst (snd out)) = http_log w \/
   exists read write,
     http_log (fst (snd out)) = (http_log w ++ [read; write])%list /\
     method read = GET /\ method write = PUT).
Proof.
  intros out. subst out.
  destruct (Scaler.missing_vars os) as [ | name names] eqn:Hmissing.
  2: { destruct (scaler_main_early_exit transport py_int os w) as (He & Hl);
       [ left; congruence | auto ]. }
  destruct (py_int (getenv_default os "MIN_CAPACITY" "")) as [mn | ] eqn:Hmin.
  2: { destruct (scaler_main_early_exit transport py_int os w) as (He & Hl);
       [ right; left; exact Hmin | auto ]. }
  destruct (py_int (getenv_default os "MAX_CAPACITY" "")) as [mx | ] eqn:Hmax.
  2: { destruct (scaler_main_early_exit transport py_int os w) as (He & Hl);
       [ right; right; left; exact Hmax | auto ]. }
  destruct (Z_lt_ge_dec mn 1) as [Hlo | Hlo].
  { destruct (scaler_main_early_exit transport py_int os w) as (He & Hl);
      [ right; right; right; exists mn, mx; auto | auto ]. }
  destruct (Z_lt_ge_dec mx mn) as [Hhi | Hhi].
  { destruct (scaler_main_early_exit transport py_int os w) as (He & Hl);
      [ right; right; right; exists mn, mx; auto | auto ]. }
  destruct (scaler_main_run transport py_int os w mn mx Hmissing Hmin Hmax
              ltac:(lia) ltac:(lia)) as (Hexit & Hlog & _).
  split.
  - rewrite Hexit. destruct (write_result _); auto.
  - right. eexists. eexists. split; [ exact Hlog | split; reflexivity ].
Qed.

(** ** Further properties of the reporter *)

(** X12. When one of the three required variables is unset or empty, the
    reporter's [main] prints their names, sends no request and exits with
    status 0; the names printed are exactly those of the three that are unset
    or empty. *)
Theorem reporter_main_missing_variables transport os w :
  Reporter.missing_vars os <> [] ->
  let out := Reporter.main transport os (w, tt) in
  fst out = inl (SystemExit 0) /\
  http_log (fst (snd out)) = http_log w /\
  stdout (fst (snd out)) = (stdout w ++ [PPortSkipped (Reporter.missing_vars os)])%list /\
  (forall name,
      In name (Reporter.missing_vars os) <->
      In name ["PORT_CLIENT_ID"; "PORT_CLIENT_SECRET"; "CLUSTER_ID"] /\
      env_missing (getenv os name) = true).
Proof.
  intros Hmissing out. subst out.
  split; [ | split; [ | split ] ];
    try (unfold Reporter.main;
         destruct (Reporter.missing_vars os); [ congruence | reflexivity ]).
  clear Hmissing. intros name. unfold Reporter.missing_vars.
  split; intros Hin; [ split | ];
    destruct (env_missing (getenv os "PORT_CLIENT_ID")) eqn:H1;
    destruct (env_missing (getenv os "PORT_CLIENT_SECRET")) eqn:H2;
    destruct (env_missing (getenv os "CLUSTER_ID")) eqn:H3;
    cbn in *;
    repeat match goal with
           | H : _ \/ _ |- _ => destruct H
           | H : _ /\ _ |- _ => destruct H
           | H : False |- _ => destruct H
           end; subst; auto 10; congruence.
Qed.

Lemma reporter_main_missing_variables_witness :
  let os := os_of [("PORT_CLIENT_ID", "port-id"); ("CLUSTER_ID", "o-12ab34cd")]
                  "2024-05-01T10:05:00" in
  let out := Reporter.main (by_method (fun _ => token_response)) os (empty_world, tt) in
  fst out = inl (SystemExit 0) /\
  http_log (fst (snd out)) = [] /\
  stdout (fst (snd out)) = [PPortSkipped ["PORT_CLIENT_SECRET"]].
Proof.
  intros os.
  destruct (reporter_main_missing_variables (by_method (fun _ => token_response))
                                            os empty_world)
    as (Hexit & Hlog & Hout & _).
  - discriminate.
  - split; [ exact Hexit | split; [ exact Hlog | exact Hout ] ].
Defined.

(** One run of [authenticate]: the request, the outcome, the stored token. *)
Lemma authenticate_run transport w self :
  let out := authenticate transport (w, self) in
  http_log (fst (snd out)) = (http_log w ++ [auth_request self])%list /\
  (forall tok,
      fst out = inr tok <->
      exists response body,
        transport (http_log w) (auth_request self) = inr response /\
        raise_for_status response = inr tt /\
        json_body response = Some body /\
        getitem_str body "accessToken" = inr tok) /\
  (forall tok, fst out = inr tok -> snd (snd out) = set_access_token tok self) /\
  (forall r, fst out = inl r -> snd (snd out) = self).
Proof.
  unfold authenticate, response_json. unfold_monad. cbn.
  destruct (transport (http_log w) (auth_request self)) as [e | response]; cbn.
  { repeat split; intros; try congruence.
    destruct H as (? & ? & ? & _). congruence. }
  destruct (raise_for_status response) as [e | []] eqn:Hstatus; cbn.
  { repeat split; intros; try congruence.
    destruct H as (? & ? & H & ? & _). congruence. }
  destruct (json_body response) as [body | ] eqn:Hbody; cbn.
  2: { repeat split; intros; try congruence.
       destruct H as (? & ? & H & _ & ? & _). congruence. }
  destruct (getitem_str body "accessToken") as [e | tok] eqn:Hkey; cbn.
  { repeat split; intros; try congruence.
    destruct H as (? & ? & H & _ & ? & ?). congruence. }
  repeat split; intros; try congruence.
  - exists response, body. repeat split; congruence.
  - destruct H as (? & ? & H & _ & ? & ?). congruence.
Qed.

(** X13. [authenticate] sends the token request whether or not a token is
    already held. It returns a token exactly when the answer has no 4xx or
    5xx status and its JSON body is an object with the key [accessToken];
    that value then replaces the stored token. When it fails, the stored
    token is left as it was. *)
Theorem authenticate_effect transport w self :
  let out := authenticate transport (w, self) in
  http_log (fst (snd out)) = (http_log w ++ [auth_request self])%list /\
  (forall tok,
      fst out = inr tok <->
      exists response body,
        transport (http_log w) (auth_request self) = inr response /\
        raise_for_status response = inr tt /\
        json_body response = Some body /\
        getitem_str body "accessToken" = inr tok) /\
  (forall tok, fst out = inr tok -> snd (snd out) = set_access_token tok self) /\
  (forall r, fst out = inl r -> snd (snd out) = self).
Proof. exact (authenticate_run transport w self). Qed.

Lemma authenticate_effect_witness :
  let held := set_access_token (JString "old") (Reporter.init "port-id" "port-secret") in
  let out := authenticate (by_method (fun _ => token_response)) (empty_world, held) in
  access_token (snd (snd out)) = JString "tok-1" /\
  map method (http_log (fst (snd out))) = [POST].
Proof.
  intros held out.
  destruct (authenticate_effect (by_method (fun _ => token_response)) empty_world held)
    as (Hlog & _ & Hset & _).
  fold out in Hlog, Hset. split.
  - rewrite (Hset (JString "tok-1") eq_refl). reflexivity.
  - rewrite Hlog. reflexivity.
Defined.

(** X14. When the authentication inside [update_entity_status] fails, the
    call ends with that failure, the token request is the only request
    sent (no PATCH goes out without a token), and the instance is left as it
    was. *)
Theorem update_entity_status_auth_failure transport os blueprint_id entity_identifier
        scaling_status details w self r :
  truthy (access_token self) = false ->
  fst (authenticate transport (w, self)) = inl r ->
  let out := update_entity_status transport os blueprint_id entity_identifier
                                  scaling_status details (w, self) in
  fst out = inl r /\
  http_log (fst (snd out)) = (http_log w ++ [auth_request self])%list /\
  snd (snd out) = self.
Proof.
  intros Htok Hfail out. subst out.
  destruct (authenticate_run transport w self) as (Hlog & _ & _ & Hkeep).
  specialize (Hkeep r Hfail).
  unfold update_entity_status, authenticate_if_needed.
  remember (authenticate transport) as auth eqn:Hauth. clear Hauth.
  unfold_monad. cbn. rewrite Htok. cbn.
  destruct (auth (w, self)) as [res [w1 self1]]. cbn in *. subst res self1.
  auto.
Qed.

Lemma update_entity_status_auth_failure_witness :
  let out := update_entity_status
               (by_method (fun _ => response_of 401 "Unauthorized" None))
               reporter_env "spot_ocean_cluster" "o-12ab34cd-heartbeat" "success" None
               (empty_world, Reporter.init "port-id" "port-secret") in
  map method (http_log (fst (snd out))) = [POST] /\
  access_token (snd (snd out)) = JNull.
Proof.
  intros out.
  destruct (update_entity_status_auth_failure
              (by_method (fun _ => response_of 401 "Unauthorized" None))
              reporter_env "spot_ocean_cluster" "o-12ab34cd-heartbeat" "success" None
              empty_world (Reporter.init "port-id" "port-secret") _ eq_refl eq_refl)
    as (_ & Hlog & Hself).
  fold out in Hlog, Hself. rewrite Hlog, Hself. split; reflexivity.
Defined.

(** X15. Once a token is held, a PATCH answered with status 200 or 201 and
    a JSON body makes [update_entity_status] return that body as decoded and
    print the success line; with such a status and a body that is not JSON
    it raises [JSONDecodeError]. *)
Theorem update_entity_status_success transport os blueprint_id entity_identifier
        scaling_status details w self w1 self1 response :
  authenticate_if_needed transport (w, self) = (inr tt, (w1, self1)) ->
  transport (http_log w1)
            (patch_request os self1 blueprint_id entity_identifier scaling_status
                           details) = inr response ->
  status_code response = 200 \/ status_code response = 201 ->
  let out := update_entity_status transport os blueprint_id entity_identifier
                                  scaling_status details (w, self) in
  (forall result, json_body response = Some result ->
     fst out = inr result /\
     stdout (fst (snd out))
     = (stdout w1 ++ [PUpdating entity_identifier (port_status scaling_status);
                      PPortUpdated])%list) /\
  (json_body response = None -> fst out = inl (Exc JSONDecodeError)).
Proof.
  intros Hpre Hsend Hcode out. subst out.
  destruct (update_entity_status_run transport os blueprint_id entity_identifier
              scaling_status details w self w1 self1 Hpre) as (Hres & _ & _ & Hout).
  rewrite Hres, Hout, Hsend.
  unfold patch_result, patch_prints, response_json, not_in_200_201.
  split; [ intros result Hbody | intros Hbody ]; rewrite Hbody;
    destruct Hcode as [-> | ->]; auto.
Qed.

Lemma update_entity_status_success_witness :
  let entity := JObject [("identifier", JString "o-12ab34cd-heartbeat")] in
  fst (update_entity_status
         (by_method (fun m => match m with
                              | POST => token_response
                              | _ => response_of 201 "..." (Some entity)
                              end))
         reporter_env "spot_ocean_cluster" "o-12ab34cd-heartbeat" "success" None
         (empty_world, Reporter.init "port-id" "port-secret"))
  = inr entity.
Proof.
  intros entity.
  eapply (proj1 (update_entity_status_success
                   (by_method (fun m => match m with
                                        | POST => token_response
                                        | _ => response_of 201 "..." (Some entity)
                                        end))
                   reporter_env "spot_ocean_cluster" "o-12ab34cd-heartbeat" "success"
                   None empty_world (Reporter.init "port-id" "port-secret") _ _ _
                   eq_refl eq_refl (or_intror eq_refl))).
  reflexivity.
Defined.

Lemma dict_get_dict_set_same k v d : dict_get k (dict_set k v d) = Some v.
Proof.
  induction d as [ | [k0 v0] d IH]; cbn.
  - rewrite String.eqb_refl. reflexivity.
  - destruct (String.eqb_spec k0 k) as [-> | Hne]; cbn.
    + rewrite String.eqb_refl. reflexivity.
    + destruct (String.eqb_spec k0 k); [ congruence | exact IH ].
Qed.

Lemma dict_get_none_keys k d : dict_get k d = None <-> ~ In k (dict_keys d).
Proof.
  induction d as [ | [k0 v0] d IH]; cbn.
  - tauto.
  - destruct (String.eqb_spec k0 k) as [-> | Hne].
    + split; [ discriminate | intros H; exfalso; apply H; left; reflexivity ].
    + rewrite IH. tauto.
Qed.

Lemma dict_keys_dict_set k v d :
  dict_keys (dict_set k v d)
  = match dict_get k d with
    | Some _ => dict_keys d
    | None => (dict_keys d ++ [k])%list
    end.
Proof.
  induction d as [ | [k0 v0] d IH]; cbn; [ reflexivity | ].
  destruct (String.eqb_spec k0 k) as [-> | Hne]; cbn; [ reflexivity | ].
  unfold dict_keys in IH. rewrite IH. destruct (dict_get k d); reflexivity.
Qed.

Lemma dict_keys_dict_set_NoDup k v d :
  NoDup (dict_keys d) -> NoDup (dict_keys (dict_set k v d)).
Proof.
  intros Hd. rewrite dict_keys_dict_set.
  destruct (dict_get k d) eqn:Hget; [ exact Hd | ].
  apply dict_get_none_keys in Hget.
  apply NoDup_app; [ exact Hd | repeat constructor; intros [] | ].
  intros x Hx [<- | []]. contradiction.
Qed.

Lemma dict_update_keys d other :
  NoDup (dict_keys d) ->
  NoDup (dict_keys (dict_update d other)) /\
  (exists extra, dict_keys (dict_update d other) = (dict_keys d ++ extra)%list) /\
  (forall k, In k (dict_keys (dict_update d other)) <->
             In k (dict_keys d) \/ In k (dict_keys other)).
Proof.
  unfold dict_update. revert d.
  induction other as [ | [k0 v0] other IH]; intros d Hd; cbn [fold_left fst snd].
  - split; [ exact Hd | split; [ exists []; rewrite app_nil_r; reflexivity | ] ].
    cbn. tauto.
  - destruct (IH (dict_set k0 v0 d) (dict_keys_dict_set_NoDup k0 v0 d Hd))
      as (Hnd & (extra & Hpre) & Hin).
    change (dict_keys ((k0, v0) :: other)) with (k0 :: dict_keys other).
    split; [ exact Hnd | split ].
    + rewrite Hpre, dict_keys_dict_set.
      destruct (dict_get k0 d); [ eauto | ].
      rewrite <- app_assoc. eauto.
    + intros k. rewrite Hin, dict_keys_dict_set.
      destruct (dict_get k0 d) eqn:Hget.
      * assert (In k0 (dict_keys d)).
        { destruct (in_dec string_dec k0 (dict_keys d)) as [ | Hno]; [ assumption | ].
          apply dict_get_none_keys in Hno. congruence. }
        split; [ cbn; tauto | ]. intros [ | [<- | ]]; tauto.
      * rewrite in_app_iff. cbn. tauto.
Qed.

Lemma dict_update_get_in k v other :
  NoDup (dict_keys other) -> dict_get k other = Some v ->
  forall d, dict_get k (dict_update d other) = Some v.
Proof.
  unfold dict_update.
  induction other as [ | [k0 v0] other IH]; intros Hnd Hget d; cbn in *.
  - discriminate.
  - inversion Hnd as [ | ? ? Hfresh Hnd']; subst.
    destruct (String.eqb_spec k0 k) as [-> | Hne].
    + injection Hget as ->.
      apply dict_get_none_keys in Hfresh.
      pose proof (dict_get_dict_update k other Hfresh (dict_set k v d)) as Hkeep.
      unfold dict_update in Hkeep. rewrite Hkeep.
      apply dict_get_dict_set_same.
    + apply IH; assumption.
Qed.

(** X16. Extra details are merged over the three properties that
    [update_entity_status] builds: when the details carry their own
    [last_scaling_status], that value is the one sent, in place of the
    COMPLETED or FAILED mapped from the status. *)
Theorem details_override_status os self blueprint_id entity_identifier scaling_status
        details v :
  NoDup (dict_keys details) ->
  dict_get "last_scaling_status" details = Some v ->
  reported_status (patch_request os self blueprint_id entity_identifier scaling_status
                                 (Some details)) = Some v.
Proof.
  intros Hnd Hget. unfold reported_status, patch_request, entity_update. cbn.
  destruct details as [ | kv details]; [ discriminate | ].
  cbn [details_given].
  exact (dict_update_get_in "last_scaling_status" v (kv :: details) Hnd Hget _).
Qed.

Lemma details_override_status_witness :
  reported_status
    (patch_request reporter_env (Reporter.init "port-id" "port-secret")
                   "spot_ocean_cluster" "o-12ab34cd-heartbeat" "failure"
                   (Some [("workflow_actor", JString "octocat");
                          ("last_scaling_status", JString "COMPLETED")]))
  = Some (JString "COMPLETED").
Proof.
  apply details_override_status.
  - repeat constructor; cbn; intuition discriminate.
  - reflexivity.
Defined.

(** X17. Whatever details are passed, the body built by
    [update_entity_status] is one object under [properties] whose keys are
    all different, start with [last_scaling_status], [last_scaling_time] and
    [scaling_job_link] in this order, and are those three together with the
    keys of the details. *)
Theorem entity_update_properties os scaling_status details :
  exists properties,
    entity_update os scaling_status details = JObject [("properties", JObject properties)] /\
    NoDup (dict_keys properties) /\
    (exists extra,
        dict_keys properties
        = ("last_scaling_status" :: "last_scaling_time" :: "scaling_job_link"
             :: extra)%list) /\
    (forall k,
        In k (dict_keys properties) <->
        In k ["last_scaling_status"; "last_scaling_time"; "scaling_job_link"] \/
        exists d, details = Some d /\ In k (dict_keys d)).
Proof.
  unfold entity_update.
  set (base := [("last_scaling_status", JString (port_status scaling_status));
                ("last_scaling_time", JString (utcnow_isoformat os ++ "Z"));
                ("scaling_job_link", JString (scaling_job_link os))]).
  assert (Hbase : NoDup (dict_keys base)).
  { repeat constructor; cbn; intuition discriminate. }
  destruct details as [[ | kv d] | ]; cbn [details_given].
  - exists base. split; [ reflexivity | split; [ exact Hbase | split ] ].
    + exists []. reflexivity.
    + intros k. split; [ tauto | ]. intros [H | (d & Hd & Hin)]; [ exact H | ].
      injection Hd as <-. destruct Hin.
  - destruct (dict_update_keys base (kv :: d) Hbase) as (Hnd & (extra & Hpre) & Hin).
    eexists. split; [ reflexivity | split; [ exact Hnd | split ] ].
    + exists extra. rewrite Hpre. reflexivity.
    + intros k. rewrite Hin. split.
      * intros [H | H]; [ left; exact H | right; eauto ].
      * intros [H | (d' & Hd & H)]; [ left; exact H | ].
        injection Hd as <-. right. exact H.
  - exists base. split; [ reflexivity | split; [ exact Hbase | split ] ].
    + exists []. reflexivity.
    + intros k. split; [ tauto | ]. intros [H | (d & Hd & _)]; [ exact H | ].
      discriminate.
Qed.

(** Without a token, [authenticate_if_needed] is [authenticate]. *)
Lemma authenticate_if_needed_unauthenticated transport w self :
  truthy (access_token self) = false ->
  authenticate_if_needed transport (w, self)
  = match authenticate transport (w, self) with
    | (inr _, s) => (inr tt, s)
    | (inl r, s) => (inl r, s)
    end.
Proof.
  intros Htok. unfold authenticate_if_needed.
  remember (authenticate transport) as auth eqn:Hauth. clear Hauth.
  unfold_monad. cbn. rewrite Htok. cbn.
  destruct (auth (w, self)) as [[r | tok] s]; reflexivity.
Qed.

(** Without a token, the first request of a call is the token request. *)
Lemma update_entity_status_unauthenticated transport os blueprint_id entity_identifier
      scaling_status details w self :
  truthy (access_token self) = false ->
  exists rest,
    http_log (fst (snd (update_entity_status transport os blueprint_id
                          entity_identifier scaling_status details (w, self))))
    = (http_log w ++ auth_request self :: rest)%list.
Proof.
  intros Htok.
  destruct (authenticate_run transport w self) as (Hlog & _).
  pose proof (authenticate_if_needed_unauthenticated transport w self Htok) as Hpre.
  destruct (authenticate transport (w, self)) as [[r | tok] [w1 self1]];
    cbn in Hlog.
  - exists []. unfold update_entity_status.
    remember (authenticate_if_needed transport) as pre eqn:Hdef. clear Hdef.
    unfold_monad. rewrite Hpre. cbn. exact Hlog.
  - destruct (update_entity_status_run transport os blueprint_id entity_identifier
                scaling_status details w self w1 self1 Hpre) as (_ & Hcall & _).
    eexists. rewrite Hcall, Hlog, <- app_assoc. reflexivity.
Qed.

(** X18. A token that is empty (or null, zero, false) is stored but does not
    count as held: after a call whose authentication returned such a token,
    the next call on the same instance starts with a token request again. *)
Theorem reporter_falsy_token_not_cached transport os w self response body tok
        first second :
  truthy (access_token self) = false ->
  transport (http_log w) (auth_request self) = inr response ->
  raise_for_status response = inr tt ->
  json_body response = Some body ->
  getitem_str body "accessToken" = inr tok ->
  truthy tok = false ->
  let s1 := run_calls transport os [first] (w, self) in
  access_token (snd s1) = tok /\
  exists rest,
    http_log (fst (run_calls transport os [second] s1))
    = (http_log (fst s1) ++ auth_request (snd s1) :: rest)%list.
Proof.
  intros Hfresh Hsend Hstatus Hbody Hkey Htok s1.
  pose proof (authenticate_if_needed_fresh transport w self response body tok
                Hfresh Hsend Hstatus Hbody Hkey) as Hpre.
  destruct (update_entity_status_run transport os (call_blueprint first)
              (call_entity first) (call_status first) (call_details first)
              w self _ _ Hpre) as (_ & _ & Hself & _).
  assert (Hs1 : snd s1 = set_access_token tok self) by exact Hself.
  destruct s1 as [w1 self1]. cbn [snd fst] in *. subst self1.
  split; [ reflexivity | ].
  cbn [run_calls].
  apply update_entity_status_unauthenticated. exact Htok.
Qed.

Lemma reporter_falsy_token_not_cached_witness :
  let transport := by_method (fun m => match m with
                      | POST => response_of 200 "..."
                                  (Some (JObject [("accessToken", JString "")]))
                      | _ => response_of 200 "{}" (Some (JObject []))
                      end) in
  let s1 := run_calls transport reporter_env [sample_call]
                      (empty_world, Reporter.init "port-id" "port-secret") in
  access_token (snd s1) = JString "" /\
  exists rest,
    http_log (fst (run_calls transport reporter_env [sample_call] s1))
    = (http_log (fst s1) ++ auth_request (snd s1) :: rest)%list.
Proof.
  intros transport.
  exact (reporter_falsy_token_not_cached transport reporter_env empty_world
           (Reporter.init "port-id" "port-secret") _ _ (JString "")
           sample_call sample_call eq_refl eq_refl eq_refl eq_refl eq_refl eq_refl).
Defined.

(** X19. With the three variables set, the reporter's [main] sends the
    token request built from [PORT_CLIENT_ID] and [PORT_CLIENT_SECRET], and
    nothing else when the authentication fails. When it succeeds, one PATCH
    follows, to the entity named [CLUSTER_ID] followed by [-heartbeat] under
    the blueprint of [BLUEPRINT_ID] (by default [spot_ocean_cluster]), with
    [upsert=true] and the token itself, without prefix, as [Authorization]. *)
Theorem reporter_main_requests transport os w :
  Reporter.missing_vars os = [] ->
  let self0 := Reporter.init (getenv_default os "PORT_CLIENT_ID" "")
                             (getenv_default os "PORT_CLIENT_SECRET" "") in
  let logged := http_log (fst (snd (Reporter.main transport os (w, tt)))) in
  auth_request self0
  = {| method := POST;
       url := "https://api.port.io/v1/auth/access_token";
       headers := [];
       params := [];
       json_payload :=
         Some (JObject [("clientId", JString (getenv_default os "PORT_CLIENT_ID" ""));
                        ("clientSecret",
                         JString (getenv_default os "PORT_CLIENT_SECRET" ""))]) |} /\
  (forall r, fst (authenticate transport (w, self0)) = inl r ->
             logged = (http_log w ++ [auth_request self0])%list) /\
  (forall tok, fst (authenticate transport (w, self0)) = inr tok ->
     exists patch,
       logged = (http_log w ++ [auth_request self0; patch])%list /\
       method patch = PATCH /\
       url patch = "https://api.port.io/v1/blueprints/"
                   ++ getenv_default os "BLUEPRINT_ID" "spot_ocean_cluster"
                   ++ "/entities/" ++ getenv_default os "CLUSTER_ID" "" ++ "-heartbeat" /\
       params patch = [("upsert", "true")] /\
       headers patch = [("Authorization", tok);
                        ("Content-Type", JString "application/json")]).
Proof.
  intros Hmissing self0 logged. subst logged.
  destruct (reporter_main_run transport os w Hmissing) as (_ & Hlog & _).
  fold self0 in Hlog. rewrite Hlog. clear Hlog.
  destruct (authenticate_run transport w self0) as (Hsent & _ & Hset & Hkeep).
  pose proof (authenticate_if_needed_unauthenticated transport w self0 eq_refl) as Hpre.
  split; [ reflexivity | split ].
  - intros r Hfail. specialize (Hkeep r Hfail).
    unfold update_entity_status.
    remember (authenticate_if_needed transport) as pre eqn:Hdef. clear Hdef.
    destruct (authenticate transport (w, self0)) as [res [w1 self1]].
    cbn in Hfail, Hsent. subst res.
    unfold_monad. rewrite Hpre. cbn. exact Hsent.
  - intros tok Hok. specialize (Hset tok Hok).
    destruct (authenticate transport (w, self0)) as [res [w1 self1]].
    cbn in Hok, Hsent, Hset. subst res self1.
    destruct (update_entity_status_run transport os
                (getenv_default os "BLUEPRINT_ID" "spot_ocean_cluster")
                (getenv_default os "CLUSTER_ID" "" ++ "-heartbeat")
                (getenv_default os "SCALING_STATUS" "unknown")
                (Some (main_details os)) w self0 _ _ Hpre) as (_ & Hcall & _).
    eexists. split.
    + rewrite Hcall, Hsent, <- app_assoc. reflexivity.
    + repeat split; reflexivity.
Qed.

Lemma reporter_main_requests_witness :
  map url (http_log (fst (snd (Reporter.main
                                 (by_method (fun m => match m with
                                                      | POST => token_response
                                                      | _ => response_of 500 "boom" None
                                                      end))
                                 reporter_env (empty_world, tt)))))
  = ["https://api.port.io/v1/auth/access_token";
     "https://api.port.io/v1/blueprints/spot_ocean_cluster/entities/o-12ab34cd-heartbeat"].
Proof.
  destruct (proj2 (proj2 (reporter_main_requests
                            (by_method (fun m => match m with
                                                 | POST => token_response
                                                 | _ => response_of 500 "boom" None
                                                 end))
                            reporter_env empty_world eq_refl))
                  (JString "tok-1") eq_refl)
    as (patch & Hlog & _ & Hurl & _).
  rewrite Hlog. cbn [map app http_log empty_world]. rewrite Hurl. reflexivity.
Defined.

(** X20. When the PATCH is answered with a status outside [200, 201], the
    reporter's [main] prints the warning and then still prints the
    completion line, and exits with status 0. *)
Theorem reporter_main_completed_after_warning transport os w response body tok
        answer :
  Reporter.missing_vars os = [] ->
  let self0 := Reporter.init (getenv_default os "PORT_CLIENT_ID" "")
                             (getenv_default os "PORT_CLIENT_SECRET" "") in
  let entity := getenv_default os "CLUSTER_ID" "" ++ "-heartbeat" in
  let status := getenv_default os "SCALING_STATUS" "unknown" in
  transport (http_log w) (auth_request self0) = inr response ->
  raise_for_status response = inr tt ->
  json_body response = Some body ->
  getitem_str body "accessToken" = inr tok ->
  transport (http_log w ++ [auth_request self0])%list
            (patch_request os (set_access_token tok self0)
                           (getenv_default os "BLUEPRINT_ID" "spot_ocean_cluster")
                           entity status (Some (main_details os))) = inr answer ->
  not_in_200_201 (status_code answer) = true ->
  let out := Reporter.main transport os (w, tt) in
  fst out = inl (SystemExit 0) /\
  stdout (fst (snd out))
  = (stdout w ++ [PAuthenticated; PUpdating entity (port_status status);
                  PPortWarning (status_code answer) (text answer);
                  PPortCompleted])%list.
Proof.
  intros Hmissing self0 entity status Hsend Hstatus Hbody Hkey Hpatch Hcode out.
  subst out.
  destruct (reporter_main_run transport os w Hmissing) as (Hexit & _ & Hout).
  fold self0 entity status in Hout. split; [ exact Hexit | ].
  pose proof (authenticate_if_needed_fresh transport w self0 response body tok
                eq_refl Hsend Hstatus Hbody Hkey) as Hpre.
  destruct (update_entity_status_run transport os
              (getenv_default os "BLUEPRINT_ID" "spot_ocean_cluster")
              entity status (Some (main_details os)) w self0 _ _ Hpre)
    as (Hres & _ & _ & Hprints).
  cbn [http_log stdout] in Hres, Hprints.
  rewrite Hpatch in Hres, Hprints. unfold patch_result in Hres.
  unfold patch_prints in Hprints. rewrite Hcode in Hres, Hprints.
  rewrite Hout, Hres, Hprints, <- !app_assoc. reflexivity.
Qed.

Lemma reporter_main_completed_after_warning_witness :
  stdout (fst (snd (Reporter.main
                      (by_method (fun m => match m with
                                           | POST => token_response
                                           | _ => response_of 500 "boom" None
                                           end))
                      reporter_env (empty_world, tt))))
  = [PAuthenticated; PUpdating "o-12ab34cd-heartbeat" "FAILED";
     PPortWarning 500 "boom"; PPortCompleted].
Proof.
  apply (proj2 (reporter_main_completed_after_warning
                  (by_method (fun m => match m with
                                       | POST => token_response
                                       | _ => response_of 500 "boom" None
                                       end))
                  reporter_env empty_world _ _ (JString "tok-1") _
                  eq_refl eq_refl eq_refl eq_refl eq_refl eq_refl eq_refl)).
Defined.

(** X21. [scale_vng] does not check the pair it is given: for every two
    integers, also when the minimum is below 1 or above the maximum, it
    sends the GET and then the PUT carrying exactly these two values. The
    check is made by [main] alone, before the call. *)
Theorem scale_vng_sends_any_pair transport cluster_id vng_id min_capacity max_capacity
        reason w self :
  exists read write,
    http_log (fst (snd (Scaler.scale_vng transport cluster_id vng_id min_capacity
                                         max_capacity reason (w, self))))
    = (http_log w ++ [read; write])%list /\
    method read = GET /\ method write = PUT /\ url write = url read /\
    json_payload write =
      Some (JObject [("launchSpec",
              JObject [("resourceLimits",
                JObject [("minInstanceCount", JInt min_capacity);
                         ("maxInstanceCount", JInt max_capacity)])])]).
Proof.
  exists (Scaler.get_request self vng_id),
         (Scaler.put_request self vng_id min_capacity max_capacity).
  split; [ | repeat split ].
  apply (scale_vng_run transport cluster_id vng_id min_capacity max_capacity
                       reason w self).
Qed.
